(** * Vanta-Speech helper scripts: changelog generator and research-report scaffolder

    A shallow embedding of
      - [skills/private/vanta-speech-swift-expert/scripts/generate_changelog.py]
      - [skills/private/web-research-master/scripts/build_research_report.py]
    together with the properties their specification states about them.

    Conventions of the embedding.
      - A Python [str] is a Rocq [string]; one [ascii] stands for one Python
        character (a code point, not a byte), so the model covers the code
        points U+0000..U+00FF.
      - A Python [Dict[str, _]] is a [gmap string _]; a Python list is a [list].
      - A call that can raise returns a [result]; the two [main] functions
        thread the process's observable [world] (stdout, stderr, files).
      - The command line is modelled after [argparse] has run: [main] takes the
        parsed namespace as a record. *)

From Stdlib Require Import ZArith Floats Ascii String.
From stdpp Require Import gmap strings list pretty.

#[local] Set Warnings "-register-all".
#[local] Open Scope string_scope.
#[local] Open Scope list_scope.

(** ** Python built-ins used by the two scripts *)

Module Py.

(** The newline character, Python's ["\n"]. *)
Definition nl : string := String "010"%char "".

(** Truthiness of a [str]: the empty string is false. *)
Definition truthy (s : string) : bool :=
  match s with
  | EmptyString => false
  | String _ _ => true
  end.

(** Truthiness of an [Optional[str]]: [None] and [""] are false. *)
Definition truthy_opt (o : option string) : bool :=
  match o with
  | None => false
  | Some s => truthy s
  end.

(** Truthiness of a list: the empty list is false. *)
Definition truthy_list {A} (l : list A) : bool :=
  match l with
  | [] => false
  | _ :: _ => true
  end.

(** [sep.join(parts)]. *)
Fixpoint join (sep : string) (parts : list string) : string :=
  match parts with
  | [] => ""
  | p :: rest =>
      match rest with
      | [] => p
      | _ :: _ => p +:+ sep +:+ join sep rest
      end
  end.

(** [str(n)] for an [int]. *)
Definition str_of_int (n : Z) : string := pretty n.

(** [c.isspace()] on U+0000..U+00FF: the characters [str.strip()] removes.
    TAB, LF, VT, FF, CR, FS, GS, RS, US, SPACE, NEL (U+0085), NBSP (U+00A0). *)
Definition is_space (c : ascii) : bool :=
  let n := nat_of_ascii c in
  (((9 <=? n) && (n <=? 13)) || ((28 <=? n) && (n <=? 32))
   || (n =? 133) || (n =? 160))%nat.

(** The line boundaries of [str.splitlines()] on U+0000..U+00FF:
    LF, VT, FF, CR, FS, GS, RS, NEL. *)
Definition is_linebreak (c : ascii) : bool :=
  let n := nat_of_ascii c in
  (((10 <=? n) && (n <=? 13)) || ((28 <=? n) && (n <=? 30)) || (n =? 133))%nat.

Definition is_cr (c : ascii) : bool := (nat_of_ascii c =? 13)%nat.
Definition is_lf (c : ascii) : bool := (nat_of_ascii c =? 10)%nat.

(** [s.lstrip()]. *)
Fixpoint lstrip (s : string) : string :=
  match s with
  | EmptyString => ""
  | String c rest => if is_space c then lstrip rest else s
  end.

(** [s.rstrip()]: a character is dropped when it is whitespace and
    everything after it has been dropped. *)
Fixpoint rstrip (s : string) : string :=
  match s with
  | EmptyString => ""
  | String c rest =>
      match rstrip rest with
      | EmptyString => if is_space c then "" else String c ""
      | String _ _ as rest' => String c rest'
      end
  end.

(** [s.strip()]. *)
Definition strip (s : string) : string := rstrip (lstrip s).

(** [s.splitlines()], scanning left to right as CPython does: [cur] is the
    line collected so far; a line boundary closes it (CR LF counts as one
    boundary); what remains at the end of the string is a last line only
    when it is not empty. *)
Fixpoint splitlines_from (cur : string) (s : string) : list string :=
  match s with
  | EmptyString => if truthy cur then [cur] else []
  | String c rest =>
      if is_linebreak c then
        cur :: match rest with
               | String c' rest' =>
                   if is_cr c && is_lf c' then splitlines_from "" rest'
                   else splitlines_from "" rest
               | EmptyString => []
               end
      else splitlines_from (cur +:+ String c "") rest
  end.

Definition splitlines (s : string) : list string := splitlines_from "" s.

End Py.

(** ** Exceptions, results and the observable world *)

(** The exceptions the two scripts can raise or meet. *)
Inductive exn :=
  | CalledProcessError (returncode : Z) (captured_stderr : string)
  | FileNotFoundError (what : string)
  | OSError (path : string)
  | JSONDecodeError
  | ValueError (msg : string)
  | AttributeError
  | TypeError.

Inductive result (A : Type) :=
  | Ok (a : A)
  | Raise (e : exn).
Arguments Ok {A} a.
Arguments Raise {A} e.

(** Sequencing: the first exception raised ends the computation. *)
#[global] Instance result_ret : MRet result := fun _ a => Ok a.
#[global] Instance result_bind : MBind result := fun _ _ k r =>
  match r with
  | Ok a => k a
  | Raise e => Raise e
  end.

(** What a run of a script leaves behind: the text written to the two
    standard streams and the contents of the files. [unwritable] lists the
    paths that [open(path, "w")] refuses (missing directory, no permission). *)
Record world := World {
  stdout : string;
  stderr : string;
  files : gmap string string;
  unwritable : gset string;
}.

(** How a script ends: [return n] from [main] (the exit status handed to
    [SystemExit]) or an exception that nothing catches. *)
Inductive outcome :=
  | Exit (status : Z)
  | Uncaught (e : exn).

(** [print(s)]: the text and a newline go to stdout. *)
Definition print (s : string) (w : world) : world :=
  World (stdout w +:+ s +:+ Py.nl) (stderr w) (files w) (unwritable w).

(** [sys.stderr.write(s)]. *)
Definition stderr_write (s : string) (w : world) : world :=
  World (stdout w) (stderr w +:+ s) (files w) (unwritable w).

(** [with open(path, "w", encoding="utf-8") as handle: handle.write(s)]:
    the file is truncated and then holds exactly [s]. *)
Definition write_file (path s : string) (w : world) : result world :=
  if decide (path ∈ unwritable w) then Raise (OSError path)
  else Ok (World (stdout w) (stderr w) (<[path := s]> (files w)) (unwritable w)).

(** ** generate_changelog.py *)

Module Changelog.

(** What [subprocess.run] meets: the program ran and exited, or it could
    not be started at all. *)
Record completed := Completed {
  returncode : Z;
  proc_stdout : string;
  proc_stderr : string;
}.

Inductive spawn :=
  | Ran (p : completed)
  | NotStarted.

(** The repository as the script sees it: what [git] answers to a list
    of arguments. *)
Definition git_oracle := list string -> spawn.

(** [run_git]: [check=True] turns a non-zero exit status into
    [CalledProcessError], carrying the captured stderr. *)
Definition run_git (git : git_oracle) (args : list string) : result string :=
  match git args with
  | NotStarted => Raise (FileNotFoundError "git")
  | Ran p =>
      if (returncode p =? 0)%Z then Ok (Py.strip (proc_stdout p))
      else Raise (CalledProcessError (returncode p) (proc_stderr p))
  end.

(** [get_last_tag]: only [CalledProcessError] is caught. *)
Definition get_last_tag (git : git_oracle) : result (option string) :=
  match run_git git ["describe"; "--tags"; "--abbrev=0"] with
  | Ok tag => Ok (if Py.truthy tag then Some tag else None)
  | Raise (CalledProcessError _ _) => Ok None
  | Raise e => Raise e
  end.

Definition build_range (since_ref until_ref : option string) : option string :=
  if Py.truthy_opt since_ref && Py.truthy_opt until_ref then
    Some (default "" since_ref +:+ ".." +:+ default "" until_ref)
  else if Py.truthy_opt since_ref then
    Some (default "" since_ref +:+ "..HEAD")
  else if Py.truthy_opt until_ref then
    Some (default "" until_ref)
  else None.

Definition build_log_args (git_range since_date : option string)
    (max_count : Z) (include_merges : bool) : list string :=
  let args := ["log"] in
  let args := if Py.truthy_opt git_range
              then args ++ [default "" git_range] else args in
  let args := if negb include_merges then args ++ ["--no-merges"] else args in
  let args := args ++ ["--max-count=" +:+ Py.str_of_int max_count] in
  let args := if Py.truthy_opt since_date
              then args ++ ["--since"; default "" since_date] else args in
  args ++ ["--pretty=format:%h %s"].

Definition format_markdown (title : string) (commits : list string) : string :=
  let lines := [title; ""] in
  if negb (Py.truthy_list commits) then
    Py.join Py.nl (lines ++ ["- (No commits found)"])
  else
    Py.join Py.nl (lines ++ map (fun c => "- " +:+ c) commits).

(** The namespace [parser.parse_args()] returns. *)
Record namespace := Namespace {
  since_ref : option string;
  until_ref : option string;
  since_date : option string;
  max : Z;
  include_merges : bool;
  output : option string;
}.

(** [main], line 102:
    [commits = [line.strip() for line in output.splitlines() if line.strip()]] *)
Definition parse_commits (output : string) : list string :=
  map Py.strip (filter (fun line => Is_true (Py.truthy (Py.strip line)))
                       (Py.splitlines output)).

(** [main], lines 104-111: the title line. *)
Definition build_title (since_ref since_date until_ref : option string) : string :=
  let title_parts := ["## Changelog"] in
  let title_parts := if Py.truthy_opt since_ref
    then title_parts ++ ["(since " +:+ default "" since_ref +:+ ")"]
    else title_parts in
  let title_parts := if Py.truthy_opt since_date
    then title_parts ++ ["(since " +:+ default "" since_date +:+ ")"]
    else title_parts in
  let title_parts := if Py.truthy_opt until_ref
    then title_parts ++ ["(until " +:+ default "" until_ref +:+ ")"]
    else title_parts in
  Py.join " " title_parts.

(** [main], lines 89-91: the reference the log starts from is
    [--since-ref], or the last tag when neither [--since-ref] nor
    [--since-date] is given. *)
Definition resolve_since_ref (git : git_oracle) (args : namespace)
    : result (option string) :=
  if negb (Py.truthy_opt (since_ref args)) && negb (Py.truthy_opt (since_date args))
  then get_last_tag git
  else Ok (since_ref args).

(** [main], lines 115-119: where the finished changelog goes. *)
Definition emit (args : namespace) (markdown : string) (w : world)
    : outcome * world :=
  if Py.truthy_opt (output args) then
    match write_file (default "" (output args)) (markdown +:+ Py.nl) w with
    | Ok w' => (Exit 0, w')
    | Raise e => (Uncaught e, w)
    end
  else (Exit 0, print markdown w).

Definition main (git : git_oracle) (args : namespace) (w : world)
    : outcome * world :=
  match resolve_since_ref git args with
  | Raise e => (Uncaught e, w)
  | Ok since_ref =>
      let git_range := build_range since_ref (until_ref args) in
      let log_args :=
        build_log_args git_range (since_date args) (max args) (include_merges args) in
      match run_git git log_args with
      | Raise (CalledProcessError _ err) =>
          (Exit 1,
           stderr_write (if Py.truthy err then err
                         else "Failed to run git log." +:+ Py.nl) w)
      | Raise e => (Uncaught e, w)
      | Ok output =>
          let commits := parse_commits output in
          let title := build_title since_ref (since_date args) (until_ref args) in
          let markdown := format_markdown title commits in
          emit args markdown w
      end
  end.

End Changelog.

(** ** build_research_report.py *)

Module Report.

(** What [json.load] returns: Python's image of a JSON text. *)
Inductive json :=
  | JNull
  | JBool (b : bool)
  | JInt (n : Z)
  | JFloat (x : float)
  | JStr (s : string)
  | JArr (items : list json)
  | JObj (fields : gmap string json).

(** A source object as the script's docstring and type hints describe it
    ([Dict[str, str]]): a JSON object whose values are all strings. *)
Definition source_object (d : gmap string string) : json := JObj (JStr <$> d).

(** Truthiness of a value that came out of [json.load]. *)
Definition truthy_json (v : json) : bool :=
  match v with
  | JNull => false
  | JBool b => b
  | JInt n => negb (n =? 0)%Z
  | JFloat x => negb (PrimFloat.eqb x 0%float)
  | JStr s => Py.truthy s
  | JArr items => Py.truthy_list items
  | JObj fields => negb (bool_decide (fields = ∅))
  end.

(** [item.get(key, default)]: only a [dict] has the method. *)
Definition get (item : json) (key : string) (dflt : json) : result json :=
  match item with
  | JObj fields => Ok (default dflt (fields !! key))
  | _ => Raise AttributeError
  end.

(** [sep.join(parts)] on values not known to be strings: [str.join] raises
    [TypeError] on the first element that is not a [str]. *)
Definition as_str (v : json) : result string :=
  match v with
  | JStr s => Ok s
  | _ => Raise TypeError
  end.

Definition join_values (sep : string) (parts : list json) : result string :=
  strs ← mapM as_str parts; Ok (Py.join sep strs).

(** The namespace [parser.parse_args()] returns; [--topic] and [--input]
    are required. *)
Record namespace := Namespace {
  topic : string;
  input : string;
  output : option string;
}.

Section Interpreter.

(** [str(v)] for a value that is not a [str] (numbers, booleans, lists and
    dictionaries print by their [repr]). *)
Variable py_str : json -> string.

(** [json.load] on the text of a file; [None] when the text is not JSON. *)
Variable json_loads : string -> option json.

(** A value inside an f-string: [f"{v}"]. *)
Definition format_value (v : json) : string :=
  match v with
  | JStr s => s
  | _ => py_str v
  end.

Definition load_sources (w : world) (path : string) : result (list json) :=
  match files w !! path with
  | None => Raise (FileNotFoundError path)
  | Some text =>
      match json_loads text with
      | None => Raise JSONDecodeError
      | Some (JArr items) => Ok items
      | Some _ => Raise (ValueError "Input JSON must be a list of source objects")
      end
  end.

(** [format_sources], lines 34-49: the body of the loop, that is the line
    one item adds. *)
Definition format_source (item : json) : result string :=
  title ← get item "title" (JStr "(untitled)");
  url ← get item "url" (JStr "");
  date ← get item "date" (JStr "");
  notes ← get item "notes" (JStr "");
  source_type ← get item "type" (JStr "");
  let parts := [title] in
  let parts := if truthy_json date
    then parts ++ [JStr ("[" +:+ format_value date +:+ "]")] else parts in
  let parts := if truthy_json source_type
    then parts ++ [JStr ("(" +:+ format_value source_type +:+ ")")] else parts in
  joined ← join_values " " parts;
  let line := "- " +:+ joined in
  let line := if truthy_json url
    then line +:+ Py.nl +:+ "  - URL: " +:+ format_value url else line in
  let line := if truthy_json notes
    then line +:+ Py.nl +:+ "  - Notes: " +:+ format_value notes else line in
  Ok line.

Definition format_sources (sources : list json) : result string :=
  if negb (Py.truthy_list sources) then Ok "- (No sources provided)"
  else lines ← mapM format_source sources; Ok (Py.join Py.nl lines).

Definition build_report (topic : string) (sources : list json) : result string :=
  rendered ← format_sources sources;
  Ok (Py.join Py.nl [
    "# Research Report: " +:+ topic;
    "";
    "## Summary";
    "- ...";
    "- ...";
    "";
    "## Key facts (with dates)";
    "- ...";
    "";
    "## Contradictions / uncertainties";
    "- ...";
    "";
    "## Sources";
    rendered;
    ""
  ]).

(** [main], lines 83-87: where the finished report goes. *)
Definition emit (args : namespace) (report : string) (w : world)
    : outcome * world :=
  if Py.truthy_opt (output args) then
    match write_file (default "" (output args)) report w with
    | Ok w' => (Exit 0, w')
    | Raise e => (Uncaught e, w)
    end
  else (Exit 0, print report w).

Definition main (args : namespace) (w : world) : outcome * world :=
  match load_sources w (input args) with
  | Raise e => (Uncaught e, w)
  | Ok sources =>
      match build_report (topic args) sources with
      | Raise e => (Uncaught e, w)
      | Ok report => emit args report w
      end
  end.

End Interpreter.

End Report.

(** ** The formatting layer over Python's object store

    The five formatting functions once more, this time with the list and
    dictionary objects they touch kept in a store, as CPython keeps them:
    a list or dictionary argument is a reference, [lines = [title, ""]]
    allocates, [append] and [extend] update an object in place. The
    functions are the same statements in the same order; what the store
    adds is the question the value-level embedding cannot ask, namely
    which objects a call changes. *)

Module Heap.

Inductive obj :=
  | OList (items : list string)            (* a [List[str]] *)
  | ODict (fields : gmap string string)    (* a [Dict[str, str]] *)
  | ORefs (items : list nat).              (* a list of references to objects *)

(** Objects are addressed by their position; allocation appends. *)
Definition heap := list obj.

(** A computation on the store; [None] is an access that CPython's typing
    of the arguments rules out (a reference to no object, or to an object
    of another kind). *)
Definition M (A : Type) : Type := heap -> option (A * heap).

#[global] Instance M_ret : MRet M := fun _ a h => Some (a, h).
#[global] Instance M_bind : MBind M := fun _ _ k m h =>
  match m h with
  | Some (a, h') => k a h'
  | None => None
  end.

(** A list display or comprehension, [[x, y, ...]]: a new object. *)
Definition new_list (items : list string) : M nat :=
  fun h => Some (length h, h ++ [OList items]).

Definition get_list (l : nat) : M (list string) :=
  fun h => match h !! l with
           | Some (OList xs) => Some (xs, h)
           | _ => None
           end.

Definition get_refs (l : nat) : M (list nat) :=
  fun h => match h !! l with
           | Some (ORefs rs) => Some (rs, h)
           | _ => None
           end.

(** [l.append(x)]: the object at [l] is updated in place. *)
Definition list_append (l : nat) (x : string) : M unit :=
  fun h => match h !! l with
           | Some (OList xs) => Some (tt, <[l := OList (xs ++ [x])]> h)
           | _ => None
           end.

(** [l.extend(src)]: the object at [l] is updated in place. *)
Definition list_extend (l src : nat) : M unit :=
  fun h => match h !! l, h !! src with
           | Some (OList xs), Some (OList ys) =>
               Some (tt, <[l := OList (xs ++ ys)]> h)
           | _, _ => None
           end.

(** [d.get(key, dflt)]. *)
Definition dict_get (d : nat) (key dflt : string) : M string :=
  fun h => match h !! d with
           | Some (ODict fields) => Some (default dflt (fields !! key), h)
           | _ => None
           end.

(** [sep.join(l)]. *)
Definition str_join (sep : string) (l : nat) : M string :=
  xs ← get_list l; mret (Py.join sep xs).

(** [if cond: body]. *)
Definition when (cond : bool) (body : M unit) : M unit :=
  if cond then body else mret tt.

(** [for x in xs: body]. *)
Fixpoint for_each {A} (xs : list A) (body : A -> M unit) : M unit :=
  match xs with
  | [] => mret tt
  | x :: rest => body x;; for_each rest body
  end.

Definition build_range (since_ref until_ref : option string) : M (option string) :=
  if Py.truthy_opt since_ref && Py.truthy_opt until_ref then
    mret (Some (default "" since_ref +:+ ".." +:+ default "" until_ref))
  else if Py.truthy_opt since_ref then
    mret (Some (default "" since_ref +:+ "..HEAD"))
  else if Py.truthy_opt until_ref then
    mret (Some (default "" until_ref))
  else mret None.

Definition build_log_args (git_range since_date : option string)
    (max_count : Z) (include_merges : bool) : M nat :=
  args ← new_list ["log"];
  when (Py.truthy_opt git_range) (list_append args (default "" git_range));;
  when (negb include_merges) (list_append args "--no-merges");;
  list_append args ("--max-count=" +:+ Py.str_of_int max_count);;
  when (Py.truthy_opt since_date)
    (pair ← new_list ["--since"; default "" since_date]; list_extend args pair);;
  list_append args "--pretty=format:%h %s";;
  mret args.

Definition format_markdown (title : string) (commits : nat) : M string :=
  lines ← new_list [title; ""];
  cs ← get_list commits;
  if negb (Py.truthy_list cs) then
    list_append lines "- (No commits found)";;
    str_join Py.nl lines
  else
    bullets ← new_list (map (fun c => "- " +:+ c) cs);
    list_extend lines bullets;;
    str_join Py.nl lines.

(** The body of the loop of [format_sources]: [parts] is a new list each
    time round, [lines] the one list the loop fills. *)
Definition add_source (lines item : nat) : M unit :=
  title ← dict_get item "title" "(untitled)";
  url ← dict_get item "url" "";
  date ← dict_get item "date" "";
  notes ← dict_get item "notes" "";
  source_type ← dict_get item "type" "";
  parts ← new_list [title];
  when (Py.truthy date) (list_append parts ("[" +:+ date +:+ "]"));;
  when (Py.truthy source_type)
    (list_append parts ("(" +:+ source_type +:+ ")"));;
  joined ← str_join " " parts;
  let line := "- " +:+ joined in
  let line := if Py.truthy url
    then line +:+ Py.nl +:+ "  - URL: " +:+ url else line in
  let line := if Py.truthy notes
    then line +:+ Py.nl +:+ "  - Notes: " +:+ notes else line in
  list_append lines line.

Definition format_sources (sources : nat) : M string :=
  items ← get_refs sources;
  if negb (Py.truthy_list items) then mret "- (No sources provided)"
  else
    lines ← new_list [];
    for_each items (add_source lines);;
    str_join Py.nl lines.

Definition build_report (topic : string) (sources : nat) : M string :=
  rendered ← format_sources sources;
  doc ← new_list [
    "# Research Report: " +:+ topic;
    "";
    "## Summary";
    "- ...";
    "- ...";
    "";
    "## Key facts (with dates)";
    "- ...";
    "";
    "## Contradictions / uncertainties";
    "- ...";
    "";
    "## Sources";
    rendered;
    ""
  ];
  str_join Py.nl doc.

(** [sources_at h r ds]: in [h], [r] refers to a list of dictionaries whose
    contents are [ds], in this order. *)
Definition sources_at (h : heap) (r : nat) (ds : list (gmap string string)) : Prop :=
  exists refs, h !! r = Some (ORefs refs)
    /\ Forall2 (fun ref d => h !! ref = Some (ODict d)) refs ds.

(** [returns m h a]: run in the store [h], the call [m] returns [a] and
    leaves every object of [h] as it was; it may have allocated. *)
Definition returns {A} (m : M A) (h : heap) (a : A) : Prop :=
  exists h', m h = Some (a, h') /\ h `prefix_of` h'.

(** [returns_list m h items]: as [returns], for a call that hands back a
    reference to a list whose contents are [items]. *)
Definition returns_list (m : M nat) (h : heap) (items : list string) : Prop :=
  exists r h', m h = Some (r, h') /\ h `prefix_of` h'
    /\ h' !! r = Some (OList items).

End Heap.

(** * The vocabulary of the specification

    The words the specification uses, each with its meaning on the
    embedding, and the concrete repositories, files and stores that serve
    as examples. *)

(** A string of whitespace only. *)
Fixpoint all_space (s : string) : bool :=
  match s with
  | EmptyString => true
  | String c rest => Py.is_space c && all_space rest
  end.

(** The comprehension of [main], on lines already split. *)
Definition commits_of_lines (lines : list string) : list string :=
  map Py.strip (filter (fun line => Is_true (Py.truthy (Py.strip line))) lines).

(** A bullet of the changelog. *)
Definition bullet (commit : string) : string := "- " +:+ commit.

(** An argument that is given and not the empty string. *)
Definition given (o : option string) (v : string) : Prop := o = Some v /\ v <> "".

(** An argument that is absent ([None]) or the empty string. *)
Definition absent_or_empty (o : option string) : Prop := o = None \/ o = Some "".

(** The arguments [main] hands to [git log] once the starting reference is
    settled. *)
Definition log_args_of (args : Changelog.namespace) (since_ref : option string)
    : list string :=
  Changelog.build_log_args
    (Changelog.build_range since_ref (Changelog.until_ref args))
    (Changelog.since_date args) (Changelog.max args)
    (Changelog.include_merges args).

(** A directory that is not a repository: every [git] command exits with
    status 128 and a message on stderr. *)
Definition not_a_repository : Changelog.git_oracle :=
  fun _ => Changelog.Ran
    (Changelog.Completed 128 "" "fatal: not a git repository").

(** The namespace of a run without options: [--max] defaults to 50. *)
Definition no_options : Changelog.namespace :=
  Changelog.Namespace None None None 50 false None.

(** A fresh process: nothing written yet, no file. *)
Definition empty_world : world := World "" "" ∅ ∅.

(** The commit list as the specification words it: the lines of git's
    output, each stripped of leading and trailing whitespace, those that are
    blank left out, the others in their order. *)
Definition nonblank_lines_stripped (git_output : string) : list string :=
  omap (fun line =>
          let stripped := Py.strip line in
          if Py.truthy stripped then Some stripped else None)
       (Py.splitlines git_output).

(** A repository without tags whose log has two commits; git pads its
    output with blank lines and spaces. *)
Definition two_commits : Changelog.git_oracle :=
  fun argv =>
    match argv with
    | "log" :: _ =>
        Changelog.Ran (Changelog.Completed 0
          (Py.nl +:+ "  a1b2c3d fix crash " +:+ Py.nl +:+ " " +:+ Py.nl
             +:+ "e4f5a6b add tests" +:+ Py.nl)
          "")
    | _ => Changelog.Ran (Changelog.Completed 128 "" "fatal: No names found")
    end.

(** A field of a source object that is present and not empty. *)
Definition field (d : gmap string string) (key : string) : option string :=
  match d !! key with
  | Some v => if Py.truthy v then Some v else None
  | None => None
  end.

(** The entry of one source object as the specification words it: the
    title, or ["(untitled)"] when the object has no ["title"]; then each of
    the bracketed date, the parenthesised type, the URL sub-bullet and the
    notes sub-bullet, present exactly when the field is. *)
Definition render_entry (d : gmap string string) : string :=
  "- " +:+ default "(untitled)" (d !! "title")
  +:+ match field d "date" with
      | Some date => " [" +:+ date +:+ "]"
      | None => ""
      end
  +:+ match field d "type" with
      | Some source_type => " (" +:+ source_type +:+ ")"
      | None => ""
      end
  +:+ match field d "url" with
      | Some url => Py.nl +:+ "  - URL: " +:+ url
      | None => ""
      end
  +:+ match field d "notes" with
      | Some notes => Py.nl +:+ "  - Notes: " +:+ notes
      | None => ""
      end.

(** What [format_sources] makes of source objects. *)
Definition render_sources (ds : list (gmap string string)) : string :=
  match ds with
  | [] => "- (No sources provided)"
  | _ :: _ => Py.join Py.nl (render_entry <$> ds)
  end.

(** The report template around the rendered sources. *)
Definition report_document (topic rendered : string) : string :=
  "# Research Report: " +:+ topic +:+ Py.nl
  +:+ Py.nl
  +:+ "## Summary" +:+ Py.nl
  +:+ "- ..." +:+ Py.nl
  +:+ "- ..." +:+ Py.nl
  +:+ Py.nl
  +:+ "## Key facts (with dates)" +:+ Py.nl
  +:+ "- ..." +:+ Py.nl
  +:+ Py.nl
  +:+ "## Contradictions / uncertainties" +:+ Py.nl
  +:+ "- ..." +:+ Py.nl
  +:+ Py.nl
  +:+ "## Sources" +:+ Py.nl
  +:+ rendered +:+ Py.nl.

(** A parser that knows three JSON texts, enough to run the scaffolder on
    an empty list, on a list of one empty object and on an object. *)
Definition three_texts (text : string) : option Report.json :=
  if String.eqb text "[]" then Some (Report.JArr [])
  else if String.eqb text "[{}]" then Some (Report.JArr [Report.JObj ∅])
  else if String.eqb text "{}" then Some (Report.JObj ∅)
  else None.

(** [str()] where every value to print is a string already. *)
Definition strings_only (v : Report.json) : string := "".

(** A world with the three texts on disk. *)
Definition three_files : world :=
  World "" ""
    (<["empty.json" := "[]"]> (<["one.json" := "[{}]"]> (<["object.json" := "{}"]> ∅)))
    ∅.

(** Two stores that hold the same list of commits at different places. *)
Definition one_list : Heap.heap := [Heap.OList ["a1b2c3d fix crash"]].
Definition dict_and_list : Heap.heap :=
  [Heap.ODict {["title" := "Whisper"]}; Heap.OList ["a1b2c3d fix crash"]].

(** A string without a line boundary: [splitlines] keeps it in one piece. *)
Fixpoint no_linebreak (s : string) : bool :=
  match s with
  | EmptyString => true
  | String c rest => negb (Py.is_linebreak c) && no_linebreak rest
  end.

(** A commit line as the changelog wants it: not empty, nothing to strip,
    and on one line. *)
Definition clean_commit (c : string) : Prop :=
  c <> "" /\ Py.strip c = c /\ no_linebreak c = true.

(** The bullets of a changelog: one per commit, or the placeholder. *)
Definition bullets_of (commits : list string) : list string :=
  match commits with
  | [] => ["- (No commits found)"]
  | _ :: _ => map (fun c => "- " +:+ c) commits
  end.

(** A commit list with one padded line in front of a clean one. *)
Definition clean_pair : list string := ["a1b2c3d fix crash"; "e4f5a6b add tests"].

(** The arguments of [git describe] in [get_last_tag]. *)
Definition describe_args : list string := ["describe"; "--tags"; "--abbrev=0"].

(** A repository whose last tag is [v1.2.0] and whose log since then has
    two commits. *)
Definition tagged_repository : Changelog.git_oracle :=
  fun argv =>
    match argv with
    | "describe" :: _ =>
        Changelog.Ran (Changelog.Completed 0 ("v1.2.0" +:+ Py.nl) "")
    | _ =>
        Changelog.Ran (Changelog.Completed 0
          ("a1b2c3d fix crash" +:+ Py.nl +:+ "e4f5a6b add tests") "")
    end.

(** [s] grows into [s'] by appending: nothing written earlier is lost. *)
Definition appended (s s' : string) : Prop := exists t, s' = s +:+ t.

(** An item of the input list that [format_sources] can render: a JSON
    object whose ["title"], when it has one, is a string. *)
Definition renderable (item : Report.json) : Prop :=
  exists fields, item = Report.JObj fields
    /\ (fields !! "title" = None
        \/ exists s, fields !! "title" = Some (Report.JStr s)).

(** The four optional fields of a source object. *)
Definition optional_fields : list string := ["url"; "date"; "notes"; "type"].

(** The namespace [args] with [--since-ref] set to [ref]. *)
Definition with_since_ref (args : Changelog.namespace) (ref : string)
    : Changelog.namespace :=
  Changelog.Namespace (Some ref) (Changelog.until_ref args)
    (Changelog.since_date args) (Changelog.max args)
    (Changelog.include_merges args) (Changelog.output args).

(** A repository with two commits in its log, where [git describe] is met
    with [answer]. *)
Definition answering_describe (answer : Changelog.spawn) : Changelog.git_oracle :=
  fun argv =>
    if decide (argv = describe_args) then answer
    else Changelog.Ran (Changelog.Completed 0
           ("a1b2c3d fix crash" +:+ Py.nl +:+ "e4f5a6b add tests") "").

(** * Properties *)

(** ** Strings: appending, stripping, splitting *)

Lemma string_app_cons x (a b : string) : String x a +:+ b = String x (a +:+ b).
Proof. reflexivity. Qed.

Lemma string_app_nil (b : string) : "" +:+ b = b.
Proof. reflexivity. Qed.

(** Unfold the program's functions and push appends through constructors. *)
Ltac str_simpl :=
  repeat (progress (simpl; rewrite ?string_app_cons, ?string_app_nil)).

Lemma string_app_assoc (a b c : string) : (a +:+ b) +:+ c = a +:+ (b +:+ c).
Proof. induction a as [|x a IH]; str_simpl; [reflexivity | by rewrite IH]. Qed.

Lemma string_app_empty_r (a : string) : a +:+ "" = a.
Proof. induction a as [|x a IH]; str_simpl; [reflexivity | by rewrite IH]. Qed.

Lemma join_cons sep p q rest :
  Py.join sep (p :: q :: rest) = p +:+ sep +:+ Py.join sep (q :: rest).
Proof. reflexivity. Qed.

Lemma linebreak_is_space c : Py.is_linebreak c = true -> Py.is_space c = true.
Proof.
  unfold Py.is_linebreak, Py.is_space. generalize (nat_of_ascii c). intros n.
  rewrite !orb_true_iff, !andb_true_iff, !Nat.leb_le, !Nat.eqb_eq. lia.
Qed.

Lemma lf_is_linebreak c : Py.is_lf c = true -> Py.is_linebreak c = true.
Proof.
  unfold Py.is_lf, Py.is_linebreak. generalize (nat_of_ascii c). intros n.
  rewrite !orb_true_iff, !andb_true_iff, !Nat.leb_le, !Nat.eqb_eq. lia.
Qed.

Lemma lf_not_cr c : Py.is_lf c = true -> Py.is_cr c = false.
Proof.
  unfold Py.is_lf, Py.is_cr. generalize (nat_of_ascii c). intros n.
  rewrite Nat.eqb_eq, Nat.eqb_neq. lia.
Qed.

Lemma strip_cons_space w s : Py.is_space w = true -> Py.strip (String w s) = Py.strip s.
Proof. intros Hw. unfold Py.strip. simpl. by rewrite Hw. Qed.

Lemma rstrip_snoc_space w s :
  Py.is_space w = true -> Py.rstrip (s +:+ String w "") = Py.rstrip s.
Proof.
  intros Hw. induction s as [|c s IH]; str_simpl.
  - by rewrite Hw.
  - by rewrite IH.
Qed.

Lemma strip_snoc_space w s :
  Py.is_space w = true -> Py.strip (s +:+ String w "") = Py.strip s.
Proof.
  intros Hw. induction s as [|c s IH].
  - unfold Py.strip. str_simpl. by rewrite Hw.
  - unfold Py.strip in *. str_simpl. destruct (Py.is_space c); [exact IH|].
    rewrite <- string_app_cons. apply (rstrip_snoc_space w (String c s) Hw).
Qed.

Lemma rstrip_split s : exists ws, all_space ws = true /\ s = Py.rstrip s +:+ ws.
Proof.
  induction s as [|c s [ws [Hws Hs]]]; simpl.
  - by exists "".
  - destruct (Py.rstrip s) as [|c' r'] eqn:Hr.
    + rewrite string_app_nil in Hs. subst ws.
      destruct (Py.is_space c) eqn:Hc.
      * exists (String c s). split; [|reflexivity]. simpl. by rewrite Hc.
      * exists s. by split.
    + exists ws. split; [done|]. rewrite string_app_cons. by f_equal.
Qed.

Lemma lstrip_split s : exists ws, all_space ws = true /\ s = ws +:+ Py.lstrip s.
Proof.
  induction s as [|c s [ws [Hws Hs]]]; simpl.
  - by exists "".
  - destruct (Py.is_space c) eqn:Hc.
    + exists (String c ws). split; [by simpl; rewrite Hc|].
      rewrite string_app_cons. by f_equal.
    + by exists "".
Qed.

(** ** From lines to commits *)

Lemma parse_commits_lines output :
  Changelog.parse_commits output = commits_of_lines (Py.splitlines output).
Proof. reflexivity. Qed.

Lemma commits_of_lines_cons line rest :
  commits_of_lines (line :: rest) =
    (if Py.truthy (Py.strip line) then [Py.strip line] else [])
      ++ commits_of_lines rest.
Proof.
  unfold commits_of_lines. rewrite filter_cons.
  destruct (Py.truthy (Py.strip line)) eqn:E; simpl.
  - destruct (decide (Is_true true)) as [_|n]; [reflexivity|]. by destruct n.
  - destruct (decide (Is_true false)) as [[]|_]. reflexivity.
Qed.

Lemma commits_of_lines_blank line rest :
  Py.strip line = "" -> commits_of_lines (line :: rest) = commits_of_lines rest.
Proof. intros E. rewrite commits_of_lines_cons, E. reflexivity. Qed.

Lemma commits_of_lines_same a b rest :
  Py.strip a = Py.strip b ->
  commits_of_lines (a :: rest) = commits_of_lines (b :: rest).
Proof. intros E. rewrite !commits_of_lines_cons, E. reflexivity. Qed.

Lemma strip_single_space w : Py.is_space w = true -> Py.strip (String w "") = "".
Proof. intros Hw. by rewrite strip_cons_space. Qed.

(** Whitespace in front of the line being collected changes no commit. *)
Lemma splitlines_from_lead_space w s :
  Py.is_space w = true ->
  forall cur,
    commits_of_lines (Py.splitlines_from (String w cur) s)
    = commits_of_lines (Py.splitlines_from cur s).
Proof.
  intros Hw. induction s as [|c s IH]; intros cur; simpl.
  - destruct cur as [|c' cur]; simpl.
    + by rewrite commits_of_lines_blank by by apply strip_single_space.
    + apply commits_of_lines_same. by apply strip_cons_space.
  - destruct (Py.is_linebreak c).
    + apply commits_of_lines_same. by apply strip_cons_space.
    + rewrite string_app_cons. apply IH.
Qed.

(** A whitespace character in front of the output changes no commit. *)
Lemma splitlines_lead_space w s :
  Py.is_space w = true ->
  commits_of_lines (Py.splitlines (String w s)) = commits_of_lines (Py.splitlines s).
Proof.
  intros Hw. unfold Py.splitlines. simpl.
  destruct (Py.is_linebreak w) eqn:Hb.
  - rewrite commits_of_lines_blank by reflexivity.
    destruct s as [|c' s']; [reflexivity|].
    destruct (Py.is_cr w && Py.is_lf c') eqn:Hcrlf; [|reflexivity].
    apply andb_true_iff in Hcrlf as [_ Hlf].
    simpl. rewrite (lf_is_linebreak _ Hlf), (lf_not_cr _ Hlf). simpl.
    rewrite commits_of_lines_blank by reflexivity.
    destruct s'; reflexivity.
  - rewrite string_app_nil. by apply splitlines_from_lead_space.
Qed.

(** A whitespace character after the output changes no commit. *)
Lemma splitlines_from_trail_space w :
  Py.is_space w = true ->
  forall n s, String.length s <= n -> forall cur,
    commits_of_lines (Py.splitlines_from cur (s +:+ String w ""))
    = commits_of_lines (Py.splitlines_from cur s).
Proof.
  intros Hw.
  assert (Hbase : forall cur,
    commits_of_lines (Py.splitlines_from cur (String w ""))
    = commits_of_lines (Py.splitlines_from cur "")).
  { intros cur. simpl. destruct (Py.is_linebreak w).
    - destruct cur; simpl; [by rewrite commits_of_lines_blank|reflexivity].
    - destruct cur as [|c' cur]; str_simpl.
      + by rewrite commits_of_lines_blank by by apply strip_single_space.
      + apply commits_of_lines_same.
        rewrite <- string_app_cons. by apply strip_snoc_space. }
  induction n as [|n IH]; intros s Hlen cur.
  - destruct s; [|simpl in Hlen; lia]. rewrite string_app_nil. apply Hbase.
  - destruct s as [|c s]; [rewrite string_app_nil; apply Hbase|].
    simpl in Hlen. rewrite string_app_cons. simpl.
    destruct (Py.is_linebreak c).
    + rewrite !(commits_of_lines_cons cur). f_equal.
      destruct s as [|c' s'].
      * rewrite string_app_nil.
        destruct (Py.is_cr c && Py.is_lf w); [reflexivity|].
        apply (Hbase "").
      * simpl in Hlen. rewrite string_app_cons. cbv beta iota.
        destruct (Py.is_cr c && Py.is_lf c').
        -- apply IH. lia.
        -- rewrite <- string_app_cons. apply IH. simpl. lia.
    + apply IH. lia.
Qed.

Lemma parse_commits_lead ws s :
  all_space ws = true ->
  Changelog.parse_commits (ws +:+ s) = Changelog.parse_commits s.
Proof.
  rewrite !parse_commits_lines.
  induction ws as [|w ws IH]; simpl; intros H; [reflexivity|].
  apply andb_true_iff in H as [Hw Hws].
  rewrite string_app_cons, splitlines_lead_space by done. by apply IH.
Qed.

Lemma parse_commits_trail ws :
  all_space ws = true ->
  forall s, Changelog.parse_commits (s +:+ ws) = Changelog.parse_commits s.
Proof.
  induction ws as [|w ws IH]; simpl; intros H s.
  - by rewrite string_app_empty_r.
  - apply andb_true_iff in H as [Hw Hws].
    change (String w ws) with (String w "" +:+ ws).
    rewrite <- string_app_assoc, IH by done.
    rewrite !parse_commits_lines. unfold Py.splitlines.
    by apply (splitlines_from_trail_space w Hw (String.length s)).
Qed.

(** Stripping the whole output first, as [run_git] does, changes no commit. *)
Lemma parse_commits_strip raw :
  Changelog.parse_commits (Py.strip raw) = Changelog.parse_commits raw.
Proof.
  unfold Py.strip.
  destruct (lstrip_split raw) as [ws1 [H1 E1]].
  destruct (rstrip_split (Py.lstrip raw)) as [ws2 [H2 E2]].
  rewrite E1 at 2. rewrite parse_commits_lead by done.
  rewrite E2 at 2. by rewrite parse_commits_trail.
Qed.

(** ** The changelog generator *)

Lemma format_markdown_nonempty title commits :
  commits <> [] ->
  Changelog.format_markdown title commits
  = Py.join Py.nl (title :: "" :: map bullet commits).
Proof. destruct commits; [congruence | reflexivity]. Qed.

(** C1. For every title and every non-empty list of commits,
    [format_markdown] returns the title line, one empty line, and then one
    line ["- <commit>"] per commit, in the order of the input list, joined
    by newlines. The second equation spells the first two lines out. *)
Theorem format_markdown_bullet_list (title : string) (commits : list string) :
  commits <> [] ->
  Changelog.format_markdown title commits
    = Py.join Py.nl ([title; ""] ++ map (fun c => "- " +:+ c) commits)
  /\ Changelog.format_markdown title commits
    = title +:+ Py.nl +:+ "" +:+ Py.nl
        +:+ Py.join Py.nl (map (fun c => "- " +:+ c) commits).
Proof.
  intros Hne. rewrite format_markdown_nonempty by done. split; [reflexivity|].
  destruct commits as [|c cs]; [congruence|]. reflexivity.
Qed.

Lemma format_markdown_bullet_list_witness :
  ["a1b2c3d fix crash"; "e4f5a6b add tests"] <> []
  /\ Changelog.format_markdown "## Changelog"
       ["a1b2c3d fix crash"; "e4f5a6b add tests"]
     = "## Changelog" +:+ Py.nl +:+ "" +:+ Py.nl
         +:+ Py.join Py.nl ["- a1b2c3d fix crash"; "- e4f5a6b add tests"].
Proof.
  split; [discriminate|].
  apply (format_markdown_bullet_list "## Changelog"
           ["a1b2c3d fix crash"; "e4f5a6b add tests"]).
  discriminate.
Defined.

Lemma truthy_opt_given o v : given o v -> Py.truthy_opt o = true /\ default "" o = v.
Proof. intros [-> Hv]. destruct v; [congruence | done]. Qed.

Lemma truthy_opt_absent o : absent_or_empty o -> Py.truthy_opt o = false.
Proof. by intros [-> | ->]. Qed.

Lemma given_or_absent o : (exists v, given o v) \/ absent_or_empty o.
Proof.
  destruct o as [[|c s]|].
  - right. by right.
  - left. by exists (String c s).
  - right. by left.
Qed.

Lemma given_not_absent o v : given o v -> ~ absent_or_empty o.
Proof. intros [-> Hv] [H | H]; congruence. Qed.

(** C10. [build_range] returns ["<since_ref>..<until_ref>"] when both
    arguments are non-empty, ["<since_ref>..HEAD"] when only [since_ref] is,
    the bare [until_ref] when only [until_ref] is, and [None] when both are
    absent or empty; every pair of arguments falls under one of the four
    cases, and under no two of them. *)
Theorem build_range_four_cases (since_ref until_ref : option string) :
  let both := (exists s, given since_ref s) /\ (exists u, given until_ref u) in
  let since_only := (exists s, given since_ref s) /\ absent_or_empty until_ref in
  let until_only := absent_or_empty since_ref /\ (exists u, given until_ref u) in
  let neither := absent_or_empty since_ref /\ absent_or_empty until_ref in
  (forall s u, given since_ref s -> given until_ref u ->
     Changelog.build_range since_ref until_ref = Some (s +:+ ".." +:+ u))
  /\ (forall s, given since_ref s -> absent_or_empty until_ref ->
     Changelog.build_range since_ref until_ref = Some (s +:+ "..HEAD"))
  /\ (forall u, absent_or_empty since_ref -> given until_ref u ->
     Changelog.build_range since_ref until_ref = Some u)
  /\ (absent_or_empty since_ref -> absent_or_empty until_ref ->
     Changelog.build_range since_ref until_ref = None)
  /\ (both \/ since_only \/ until_only \/ neither)
  /\ ~ (both /\ since_only) /\ ~ (both /\ until_only) /\ ~ (both /\ neither)
  /\ ~ (since_only /\ until_only) /\ ~ (since_only /\ neither)
  /\ ~ (until_only /\ neither).
Proof.
  assert (Hs : ~ ((exists s, given since_ref s) /\ absent_or_empty since_ref)).
  { intros [[s Hs] Ha]. by apply (given_not_absent _ _ Hs). }
  assert (Hu : ~ ((exists u, given until_ref u) /\ absent_or_empty until_ref)).
  { intros [[u Hu] Ha]. by apply (given_not_absent _ _ Hu). }
  unfold Changelog.build_range. cbv zeta. repeat apply conj.
  - intros s u [Hs' ->]%truthy_opt_given [Hu' ->]%truthy_opt_given.
    by rewrite Hs', Hu'.
  - intros s [Hs' ->]%truthy_opt_given Hu'%truthy_opt_absent.
    by rewrite Hs', Hu'.
  - intros u Hs'%truthy_opt_absent [Hu' ->]%truthy_opt_given.
    by rewrite Hs', Hu'.
  - intros Hs'%truthy_opt_absent Hu'%truthy_opt_absent. by rewrite Hs', Hu'.
  - destruct (given_or_absent since_ref), (given_or_absent until_ref); tauto.
  - tauto.
  - tauto.
  - tauto.
  - tauto.
  - tauto.
  - tauto.
Qed.

Lemma build_range_four_cases_witness :
  Changelog.build_range (Some "v1.2.0") (Some "v1.3.0") = Some "v1.2.0..v1.3.0"
  /\ Changelog.build_range (Some "v1.2.0") (Some "") = Some "v1.2.0..HEAD"
  /\ Changelog.build_range None (Some "v1.3.0") = Some "v1.3.0"
  /\ Changelog.build_range (Some "") None = None.
Proof.
  repeat apply conj.
  - apply (proj1 (build_range_four_cases (Some "v1.2.0") (Some "v1.3.0"))
             "v1.2.0" "v1.3.0");
      split; [reflexivity | discriminate | reflexivity | discriminate].
  - apply (proj1 (proj2 (build_range_four_cases (Some "v1.2.0") (Some "")))
             "v1.2.0");
      [split; [reflexivity | discriminate] | right; reflexivity].
  - apply (proj1 (proj2 (proj2 (build_range_four_cases None (Some "v1.3.0"))))
             "v1.3.0");
      [left; reflexivity | split; [reflexivity | discriminate]].
  - apply (proj1 (proj2 (proj2 (proj2 (build_range_four_cases (Some "") None)))));
      [right; reflexivity | left; reflexivity].
Defined.

(** C3. When [git log] fails, that is when [run_git] raises
    [CalledProcessError], [main] writes the captured stderr of the command
    (or, when that is empty, ["Failed to run git log."]) to standard error
    and returns 1; stdout and the files, the [--output] file among them,
    are as they were. [resolve_since_ref git args = Ok since_ref] says that
    [main] got as far as the [git log] call. *)
Theorem main_git_log_failure (git : Changelog.git_oracle)
    (args : Changelog.namespace) (w : world)
    (since_ref : option string) (rc : Z) (err : string) :
  Changelog.resolve_since_ref git args = Ok since_ref ->
  Changelog.run_git git (log_args_of args since_ref)
    = Raise (CalledProcessError rc err) ->
  Changelog.main git args w
    = (Exit 1,
       World (stdout w)
             (stderr w +:+ (if Py.truthy err then err
                            else "Failed to run git log." +:+ Py.nl))
             (files w) (unwritable w)).
Proof.
  intros Hsince Hlog. unfold Changelog.main. rewrite Hsince.
  unfold log_args_of in Hlog. rewrite Hlog. reflexivity.
Qed.

Lemma main_git_log_failure_witness :
  Changelog.main not_a_repository no_options empty_world
  = (Exit 1, World "" "fatal: not a git repository" ∅ ∅).
Proof.
  apply (main_git_log_failure not_a_repository no_options empty_world
           None 128 "fatal: not a git repository"); reflexivity.
Defined.

Lemma parse_commits_nonblank_lines output :
  Changelog.parse_commits output = nonblank_lines_stripped output.
Proof.
  rewrite parse_commits_lines. unfold nonblank_lines_stripped.
  induction (Py.splitlines output) as [|line lines IH]; [reflexivity|].
  rewrite commits_of_lines_cons, IH. simpl.
  by destruct (Py.truthy (Py.strip line)).
Qed.

(** C6. Whatever [git log] prints, the commit list of the changelog
    generator is the list of the non-blank lines of that output, each
    stripped of leading and trailing whitespace, in their order: [run_git]
    strips the output as a whole before [main] splits it, and that loses no
    line and reorders none. Hence a successful run emits
    [format_markdown] of exactly those commits, and the bullets come in the
    order in which git reported the commits. *)
Theorem commits_are_nonblank_lines_in_order (git : Changelog.git_oracle)
    (args : Changelog.namespace) (w : world)
    (since_ref : option string) (p : Changelog.completed) :
  Changelog.resolve_since_ref git args = Ok since_ref ->
  git (log_args_of args since_ref) = Changelog.Ran p ->
  Changelog.returncode p = 0%Z ->
  let commits := nonblank_lines_stripped (Changelog.proc_stdout p) in
  let title :=
    Changelog.build_title since_ref (Changelog.since_date args)
      (Changelog.until_ref args) in
  (output ← Changelog.run_git git (log_args_of args since_ref);
   Ok (Changelog.parse_commits output)) = Ok commits
  /\ Changelog.main git args w
     = Changelog.emit args (Changelog.format_markdown title commits) w
  /\ (commits <> [] ->
      Changelog.format_markdown title commits
      = Py.join Py.nl (title :: "" :: map (fun c => "- " +:+ c) commits)).
Proof.
  intros Hsince Hgit Hrc commits title.
  assert (Hrun : Changelog.run_git git (log_args_of args since_ref)
                 = Ok (Py.strip (Changelog.proc_stdout p))).
  { unfold Changelog.run_git. by rewrite Hgit, Hrc. }
  assert (Hcommits : Changelog.parse_commits (Py.strip (Changelog.proc_stdout p))
                     = commits).
  { by rewrite parse_commits_strip, parse_commits_nonblank_lines. }
  repeat apply conj.
  - rewrite Hrun. simpl. by rewrite Hcommits.
  - unfold Changelog.main. rewrite Hsince.
    unfold log_args_of in Hrun. rewrite Hrun. by rewrite Hcommits.
  - apply format_markdown_nonempty.
Qed.

Lemma commits_are_nonblank_lines_in_order_witness :
  Changelog.main two_commits no_options empty_world
  = (Exit 0,
     World ("## Changelog" +:+ Py.nl +:+ Py.nl +:+ "- a1b2c3d fix crash"
              +:+ Py.nl +:+ "- e4f5a6b add tests" +:+ Py.nl)
           "" ∅ ∅).
Proof.
  etransitivity.
  - apply (commits_are_nonblank_lines_in_order two_commits no_options
             empty_world None
             (Changelog.Completed 0
                (Py.nl +:+ "  a1b2c3d fix crash " +:+ Py.nl +:+ " " +:+ Py.nl
                   +:+ "e4f5a6b add tests" +:+ Py.nl)
                "")); reflexivity.
  - reflexivity.
Defined.

(** ** The report scaffolder *)

Lemma field_default {A} d key (f : string -> A) (z : A) :
  match field d key with Some v => f v | None => z end
  = if Py.truthy (default "" (d !! key)) then f (default "" (d !! key)) else z.
Proof. unfold field. destruct (d !! key) as [[|c v]|]; reflexivity. Qed.

Lemma get_source_object d key dflt :
  Report.get (Report.source_object d) key (Report.JStr dflt)
  = Ok (Report.JStr (default dflt (d !! key))).
Proof.
  unfold Report.get, Report.source_object. rewrite lookup_fmap.
  by destruct (d !! key).
Qed.

(** Bring both sides of an equation between strings to one shape. *)
Ltac str_normalize :=
  repeat (rewrite ?string_app_assoc, ?string_app_empty_r; str_simpl).

Lemma format_source_object py_str d :
  Report.format_source py_str (Report.source_object d) = Ok (render_entry d).
Proof.
  unfold Report.format_source. rewrite !get_source_object. simpl.
  unfold render_entry. rewrite !field_default.
  destruct (Py.truthy (default "" (d !! "date")));
    destruct (Py.truthy (default "" (d !! "type")));
    destruct (Py.truthy (default "" (d !! "url")));
    destruct (Py.truthy (default "" (d !! "notes")));
    simpl; f_equal; str_normalize; reflexivity.
Qed.

Lemma mapM_ok {A B C} (f : A -> result B) (g : C -> A) (h : C -> B) l :
  (forall x, f (g x) = Ok (h x)) -> mapM f (g <$> l) = Ok (h <$> l).
Proof.
  intros H. induction l as [|x l IH]; [reflexivity|].
  change (mapM f (g <$> x :: l))
    with (y ← f (g x); k ← mapM f (g <$> l); mret (y :: k)).
  rewrite H, IH. reflexivity.
Qed.

Lemma format_sources_objects py_str ds :
  Report.format_sources py_str (Report.source_object <$> ds)
  = Ok (render_sources ds).
Proof.
  destruct ds as [|d ds]; [reflexivity|].
  unfold Report.format_sources.
  change (Py.truthy_list (Report.source_object <$> d :: ds)) with true.
  cbv beta iota. simpl negb. cbv iota.
  rewrite (mapM_ok _ _ render_entry) by apply format_source_object.
  reflexivity.
Qed.

(** C8. For every source object given to [format_sources], the entry is the
    one [render_entry] describes: a missing ["title"] is rendered as
    ["(untitled)"], and the ["[date]"] bracket, the ["(type)"] parenthesis,
    the ["URL:"] sub-bullet and the ["Notes:"] sub-bullet are there exactly
    when the field is present and not empty; the entries are joined by
    newlines in the order of the list. *)
Theorem format_sources_renders_fields (py_str : Report.json -> string)
    (d : gmap string string) (ds : list (gmap string string)) :
  Report.format_source py_str (Report.source_object d) = Ok (render_entry d)
  /\ Report.format_sources py_str (Report.source_object <$> d :: ds)
     = Ok (Py.join Py.nl (render_entry <$> d :: ds)).
Proof.
  split; [apply format_source_object|].
  apply (format_sources_objects py_str (d :: ds)).
Qed.

(** C9. On an empty list each formatter emits one placeholder bullet:
    [format_markdown title []] is the title, a blank line and
    ["- (No commits found)"]; [format_sources []] is
    ["- (No sources provided)"]. *)
Theorem empty_input_placeholder :
  (forall title,
     Changelog.format_markdown title []
     = title +:+ Py.nl +:+ "" +:+ Py.nl +:+ "- (No commits found)")
  /\ (forall py_str,
     Report.format_sources py_str [] = Ok "- (No sources provided)").
Proof. split; intros; reflexivity. Qed.

Lemma build_report_document py_str topic sources rendered :
  Report.format_sources py_str sources = Ok rendered ->
  Report.build_report py_str topic sources = Ok (report_document topic rendered).
Proof.
  intros H. unfold Report.build_report. rewrite H. reflexivity.
Qed.

(** C2. For every topic and every list of source objects, [build_report]
    returns a document whose first line is ["# Research Report: <topic>"],
    followed in this order by the sections ["## Summary"],
    ["## Key facts (with dates)"], ["## Contradictions / uncertainties"] and
    ["## Sources"], with what [format_sources] returns for the sources under
    ["## Sources"] and a newline at the very end. *)
Theorem build_report_template (py_str : Report.json -> string)
    (topic : string) (ds : list (gmap string string)) :
  exists rendered,
    Report.format_sources py_str (Report.source_object <$> ds) = Ok rendered
    /\ Report.build_report py_str topic (Report.source_object <$> ds)
       = Ok ("# Research Report: " +:+ topic +:+ Py.nl
             +:+ Py.nl
             +:+ "## Summary" +:+ Py.nl
             +:+ "- ..." +:+ Py.nl
             +:+ "- ..." +:+ Py.nl
             +:+ Py.nl
             +:+ "## Key facts (with dates)" +:+ Py.nl
             +:+ "- ..." +:+ Py.nl
             +:+ Py.nl
             +:+ "## Contradictions / uncertainties" +:+ Py.nl
             +:+ "- ..." +:+ Py.nl
             +:+ Py.nl
             +:+ "## Sources" +:+ Py.nl
             +:+ rendered +:+ Py.nl).
Proof.
  exists (render_sources ds). split; [apply format_sources_objects|].
  apply build_report_document, format_sources_objects.
Qed.

(** C4. [load_sources] returns a value exactly when the text of the input
    file parses to a JSON list, and then it returns that list; when the text
    parses to anything else it raises
    [ValueError("Input JSON must be a list of source objects")]. *)
Theorem load_sources_list_or_error (json_loads : string -> option Report.json)
    (w : world) (path : string) :
  (forall items,
     Report.load_sources json_loads w path = Ok items
     <-> exists text, files w !! path = Some text
           /\ json_loads text = Some (Report.JArr items))
  /\ (forall text data,
        files w !! path = Some text ->
        json_loads text = Some data ->
        (forall items, data <> Report.JArr items) ->
        Report.load_sources json_loads w path
        = Raise (ValueError "Input JSON must be a list of source objects")).
Proof.
  unfold Report.load_sources. split.
  - intros items. split.
    + destruct (files w !! path) as [text|]; [|discriminate].
      destruct (json_loads text) as [data|] eqn:E; [|discriminate].
      destruct data; try discriminate. intros [= ->]. by exists text.
    + intros [text [-> ->]]. reflexivity.
  - intros text data -> -> Hnot. destruct data; try reflexivity.
    by destruct (Hnot items).
Qed.

Lemma load_sources_list_or_error_witness :
  Report.load_sources three_texts three_files "one.json" = Ok [Report.JObj ∅]
  /\ Report.load_sources three_texts three_files "object.json"
     = Raise (ValueError "Input JSON must be a list of source objects").
Proof.
  split.
  - apply (proj1 (load_sources_list_or_error three_texts three_files "one.json")).
    exists "[{}]". split; reflexivity.
  - apply (proj2 (load_sources_list_or_error three_texts three_files "object.json")
             "{}" (Report.JObj ∅)); [reflexivity | reflexivity | discriminate].
Defined.

Lemma truthy_nonempty path : path <> "" -> Py.truthy path = true.
Proof. destruct path; [congruence | reflexivity]. Qed.

(** C5, as the code has it. The scaffolder is a pipeline: whenever the
    input loads and [build_report] returns, what [main] emits is the string
    [build_report (topic) (load_sources (input))] and nothing else. Given
    [--output] with a path that is not empty (and that can be opened for
    writing), the file holds exactly that string afterwards and stdout is
    untouched; without [--output], or with an empty one, [print] sends that
    string and its newline to stdout and no file changes. *)
Theorem main_report_pipeline (py_str : Report.json -> string)
    (json_loads : string -> option Report.json)
    (args : Report.namespace) (w : world)
    (sources : list Report.json) (report : string) :
  Report.load_sources json_loads w (Report.input args) = Ok sources ->
  Report.build_report py_str (Report.topic args) sources = Ok report ->
  (forall path,
     Report.output args = Some path -> path <> "" -> path ∉ unwritable w ->
     Report.main py_str json_loads args w
     = (Exit 0,
        World (stdout w) (stderr w) (<[path := report]> (files w)) (unwritable w)))
  /\ (absent_or_empty (Report.output args) ->
      Report.main py_str json_loads args w
      = (Exit 0,
         World (stdout w +:+ report +:+ Py.nl) (stderr w) (files w) (unwritable w))).
Proof.
  intros Hload Hbuild. unfold Report.main, Report.emit.
  rewrite Hload, Hbuild. split.
  - intros path -> Hne Hw. simpl. rewrite (truthy_nonempty path Hne).
    unfold write_file. by rewrite decide_False.
  - intros Habs. by rewrite (truthy_opt_absent _ Habs).
Qed.

Lemma main_report_pipeline_witness :
  Report.main strings_only three_texts
    (Report.Namespace "Speech models" "one.json" (Some "report.md")) three_files
  = (Exit 0,
     World "" ""
       (<["report.md" := report_document "Speech models" "- (untitled)"]>
          (files three_files))
       ∅)
  /\ Report.main strings_only three_texts
       (Report.Namespace "Speech models" "one.json" None) three_files
     = (Exit 0,
        World (report_document "Speech models" "- (untitled)" +:+ Py.nl) ""
          (files three_files) ∅).
Proof.
  split.
  - apply (proj1 (main_report_pipeline strings_only three_texts
                    (Report.Namespace "Speech models" "one.json" (Some "report.md"))
                    three_files [Report.JObj ∅]
                    (report_document "Speech models" "- (untitled)")
                    eq_refl eq_refl) "report.md");
      [reflexivity | discriminate | apply not_elem_of_empty].
  - apply (proj2 (main_report_pipeline strings_only three_texts
                    (Report.Namespace "Speech models" "one.json" None)
                    three_files [Report.JObj ∅]
                    (report_document "Speech models" "- (untitled)")
                    eq_refl eq_refl)).
    left. reflexivity.
Defined.

(** C5, as the specification states it, fails where [--output] is given
    with an empty path: the option is there, the input is a JSON list and
    the report is built, yet [main] prints the report and writes no file. *)
Lemma main_report_empty_output_counterexample :
  Report.output (Report.Namespace "Speech models" "one.json" (Some "")) = Some ""
  /\ Report.load_sources three_texts three_files "one.json" = Ok [Report.JObj ∅]
  /\ Report.build_report strings_only "Speech models" [Report.JObj ∅]
     = Ok (report_document "Speech models" "- (untitled)")
  /\ Report.main strings_only three_texts
       (Report.Namespace "Speech models" "one.json" (Some "")) three_files
     = (Exit 0,
        World (report_document "Speech models" "- (untitled)" +:+ Py.nl) ""
          (files three_files) ∅)
  /\ files (snd (Report.main strings_only three_texts
                   (Report.Namespace "Speech models" "one.json" (Some ""))
                   three_files)) !! "" = None.
Proof. repeat apply conj; reflexivity. Qed.

(** ** The formatting layer on the object store *)

Lemma heap_lookup_old (h : Heap.heap) fresh r x :
  h !! r = Some x -> (h ++ fresh) !! r = Some x.
Proof. apply lookup_app_l_Some. Qed.

Lemma heap_lookup_fresh (h : Heap.heap) fresh k :
  (h ++ fresh) !! (length h + k) = fresh !! k.
Proof. rewrite lookup_app_r by lia. f_equal. lia. Qed.

Lemma heap_lookup_fresh0 (h : Heap.heap) fresh : (h ++ fresh) !! length h = fresh !! 0.
Proof. rewrite <- (heap_lookup_fresh h fresh 0). f_equal. lia. Qed.

Lemma heap_insert_fresh (h : Heap.heap) fresh k y :
  <[length h + k := y]> (h ++ fresh) = h ++ <[k := y]> fresh.
Proof. rewrite insert_app_r_alt by lia. do 2 f_equal. lia. Qed.

Lemma heap_insert_fresh0 (h : Heap.heap) fresh y :
  <[length h := y]> (h ++ fresh) = h ++ <[0 := y]> fresh.
Proof. rewrite <- (heap_insert_fresh h fresh 0). f_equal. lia. Qed.

(** Unfold the primitives of the store. *)
Ltac heap_unfold :=
  unfold Heap.str_join, Heap.when, Heap.new_list, Heap.get_list, Heap.get_refs,
    Heap.list_append, Heap.list_extend, Heap.dict_get,
    mbind, Heap.M_bind, mret, Heap.M_ret; cbv beta.

(** Run a computation on a store of the shape [h ++ fresh], where [fresh]
    lists the objects allocated so far and a new object is at
    [length h + k]. *)
Ltac heap_run :=
  repeat first
    [ rewrite <- (app_assoc (A := Heap.obj))
    | rewrite (length_app (A := Heap.obj))
    | rewrite heap_lookup_fresh
    | rewrite heap_lookup_fresh0
    | rewrite heap_insert_fresh
    | rewrite heap_insert_fresh0
    | erewrite heap_lookup_old by eassumption
    | progress cbn [lookup list_lookup insert list_insert app length
                    negb Py.truthy_list]
    | progress cbv beta iota ].

Lemma format_markdown_run title r commits (h : Heap.heap) :
  h !! r = Some (Heap.OList commits) ->
  Heap.returns (Heap.format_markdown title r) h
    (Changelog.format_markdown title commits).
Proof.
  intros Hr. unfold Heap.returns, Heap.format_markdown. heap_unfold.
  destruct commits as [|c cs]; heap_run.
  - eexists. split; [reflexivity|]. by apply prefix_app_r.
  - eexists. split; [reflexivity|]. by apply prefix_app_r.
Qed.

Lemma build_range_run since_ref until_ref (h : Heap.heap) :
  Heap.build_range since_ref until_ref h
  = Some (Changelog.build_range since_ref until_ref, h).
Proof.
  unfold Heap.build_range, Changelog.build_range.
  destruct (Py.truthy_opt since_ref), (Py.truthy_opt until_ref); reflexivity.
Qed.

Lemma build_log_args_run git_range since_date max_count include_merges
    (h : Heap.heap) :
  Heap.returns_list
    (Heap.build_log_args git_range since_date max_count include_merges) h
    (Changelog.build_log_args git_range since_date max_count include_merges).
Proof.
  unfold Heap.returns_list, Heap.build_log_args, Changelog.build_log_args.
  heap_unfold.
  destruct (Py.truthy_opt git_range), include_merges,
    (Py.truthy_opt since_date); heap_run;
    (do 2 eexists; split; [reflexivity|]; split; [by apply prefix_app_r|]);
    heap_run; reflexivity.
Qed.

(** One turn of the loop of [format_sources]: the entry of the item is
    appended to [lines], in place; the only other change is the new
    [parts]. *)
Lemma add_source_run (h : Heap.heap) item d done extra :
  h !! item = Some (Heap.ODict d) ->
  exists extra',
    Heap.add_source (length h) item (h ++ Heap.OList done :: extra)
    = Some (tt, h ++ Heap.OList (done ++ [render_entry d]) :: extra').
Proof.
  intros Hitem. unfold Heap.add_source. heap_unfold.
  rewrite !(heap_lookup_old _ _ _ _ Hitem).
  set (H0 := h ++ Heap.OList done :: extra).
  assert (Hparts : forall x : Heap.obj, (H0 ++ [x]) !! length H0 = Some x).
  { intros x. by apply list_lookup_middle. }
  assert (Hins : forall x y : Heap.obj,
    <[length H0 := y]> (H0 ++ [x]) = H0 ++ [y]).
  { intros x y. rewrite insert_app_r_alt by lia. by rewrite Nat.sub_diag. }
  assert (Hlines : forall x : Heap.obj,
    (H0 ++ [x]) !! length h = Some (Heap.OList done)).
  { intros x. subst H0. rewrite <- app_assoc. apply heap_lookup_fresh0. }
  assert (Hput : forall (x y : Heap.obj),
    <[length h := y]> (H0 ++ [x]) = h ++ y :: extra ++ [x]).
  { intros x y. subst H0. rewrite <- app_assoc. apply heap_insert_fresh0. }
  exists (extra ++ [Heap.OList
    ([default "(untitled)" (d !! "title")]
     ++ (if Py.truthy (default "" (d !! "date"))
         then ["[" +:+ default "" (d !! "date") +:+ "]"] else [])
     ++ (if Py.truthy (default "" (d !! "type"))
         then ["(" +:+ default "" (d !! "type") +:+ ")"] else []))]).
  unfold render_entry. rewrite !field_default.
  destruct (Py.truthy (default "" (d !! "date")));
    destruct (Py.truthy (default "" (d !! "type")));
    cbv beta iota;
    rewrite ?Hparts, ?Hins, ?Hparts, ?Hins, ?Hparts, Hlines, Hput;
    do 4 f_equal;
    destruct (Py.truthy (default "" (d !! "url")));
    destruct (Py.truthy (default "" (d !! "notes")));
    simpl; str_normalize; reflexivity.
Qed.

Lemma for_each_add_source_run (h : Heap.heap) refs ds :
  Forall2 (fun ref d => h !! ref = Some (Heap.ODict d)) refs ds ->
  forall done extra, exists extra',
    Heap.for_each refs (Heap.add_source (length h))
      (h ++ Heap.OList done :: extra)
    = Some (tt, h ++ Heap.OList (done ++ (render_entry <$> ds)) :: extra').
Proof.
  induction 1 as [|ref d refs ds Hd _ IH]; intros done extra.
  - exists extra. simpl. by rewrite app_nil_r.
  - destruct (add_source_run h ref d done extra Hd) as [extra1 Hstep].
    destruct (IH (done ++ [render_entry d]) extra1) as [extra2 Hrest].
    exists extra2. simpl. unfold mbind, Heap.M_bind.
    rewrite Hstep, Hrest. by rewrite <- app_assoc.
Qed.

Lemma format_sources_run r ds (h : Heap.heap) :
  Heap.sources_at h r ds ->
  Heap.returns (Heap.format_sources r) h (render_sources ds).
Proof.
  intros [refs [Hr Hds]]. unfold Heap.returns, Heap.format_sources.
  heap_unfold. rewrite Hr.
  destruct Hds as [|ref d refs ds Hd Hds].
  - exists h. split; reflexivity.
  - cbn [negb Py.truthy_list]. cbv beta iota.
    assert (Hall : Forall2 (fun ref d => h !! ref = Some (Heap.ODict d))
                     (ref :: refs) (d :: ds)) by by constructor.
    destruct (for_each_add_source_run h (ref :: refs) (d :: ds) Hall [] [])
      as [extra Hloop].
    rewrite Hloop. rewrite heap_lookup_fresh0. simpl.
    eexists. split; [reflexivity|]. by apply prefix_app_r.
Qed.

Lemma build_report_run topic r ds (h : Heap.heap) :
  Heap.sources_at h r ds ->
  Heap.returns (Heap.build_report topic r) h
    (report_document topic (render_sources ds)).
Proof.
  intros Hsrc. destruct (format_sources_run r ds h Hsrc) as [h1 [Hrun [fresh ->]]].
  unfold Heap.returns, Heap.build_report. unfold mbind at 1, Heap.M_bind at 1.
  rewrite Hrun. heap_unfold.
  rewrite (list_lookup_middle (h ++ fresh) []) by reflexivity.
  eexists. split; [reflexivity|].
  rewrite <- app_assoc. by apply prefix_app_r.
Qed.

(** C7. The formatting layer is stateless and deterministic. Take any two
    stores and call one of [format_markdown], [build_range],
    [build_log_args], [format_sources], [build_report] in each, with equal
    arguments (a list or dictionary argument may be a different object in
    each store, as long as the contents are equal): both calls return the
    same result, which is the value-level function of the arguments and so
    depends on nothing else, and each leaves every object of its store as
    it was. *)
Theorem formatting_layer_stateless (h1 h2 : Heap.heap) :
  (forall title r1 r2 commits,
     h1 !! r1 = Some (Heap.OList commits) ->
     h2 !! r2 = Some (Heap.OList commits) ->
     Heap.returns (Heap.format_markdown title r1) h1
       (Changelog.format_markdown title commits)
     /\ Heap.returns (Heap.format_markdown title r2) h2
       (Changelog.format_markdown title commits))
  /\ (forall since_ref until_ref,
     Heap.returns (Heap.build_range since_ref until_ref) h1
       (Changelog.build_range since_ref until_ref)
     /\ Heap.returns (Heap.build_range since_ref until_ref) h2
       (Changelog.build_range since_ref until_ref))
  /\ (forall git_range since_date max_count include_merges,
     Heap.returns_list
       (Heap.build_log_args git_range since_date max_count include_merges) h1
       (Changelog.build_log_args git_range since_date max_count include_merges)
     /\ Heap.returns_list
       (Heap.build_log_args git_range since_date max_count include_merges) h2
       (Changelog.build_log_args git_range since_date max_count include_merges))
  /\ (forall py_str r1 r2 ds,
     Heap.sources_at h1 r1 ds ->
     Heap.sources_at h2 r2 ds ->
     exists text,
       Report.format_sources py_str (Report.source_object <$> ds) = Ok text
       /\ Heap.returns (Heap.format_sources r1) h1 text
       /\ Heap.returns (Heap.format_sources r2) h2 text)
  /\ (forall py_str topic r1 r2 ds,
     Heap.sources_at h1 r1 ds ->
     Heap.sources_at h2 r2 ds ->
     exists text,
       Report.build_report py_str topic (Report.source_object <$> ds) = Ok text
       /\ Heap.returns (Heap.build_report topic r1) h1 text
       /\ Heap.returns (Heap.build_report topic r2) h2 text).
Proof.
  repeat apply conj.
  - intros title r1 r2 commits H1 H2. split; by apply format_markdown_run.
  - intros since_ref until_ref.
    split; eexists; (split; [apply build_range_run | reflexivity]).
  - intros. split; apply build_log_args_run.
  - intros py_str r1 r2 ds H1 H2. exists (render_sources ds).
    repeat apply conj;
      [apply format_sources_objects | by apply format_sources_run ..].
  - intros py_str topic r1 r2 ds H1 H2.
    exists (report_document topic (render_sources ds)).
    repeat apply conj;
      [apply build_report_document, format_sources_objects
      | by apply build_report_run ..].
Qed.

Lemma formatting_layer_stateless_witness :
  Heap.returns (Heap.format_markdown "## Changelog" 0) one_list
    ("## Changelog" +:+ Py.nl +:+ Py.nl +:+ "- a1b2c3d fix crash")
  /\ Heap.returns (Heap.format_markdown "## Changelog" 1) dict_and_list
    ("## Changelog" +:+ Py.nl +:+ Py.nl +:+ "- a1b2c3d fix crash").
Proof.
  apply (proj1 (formatting_layer_stateless one_list dict_and_list)
           "## Changelog" 0 1 ["a1b2c3d fix crash"]); reflexivity.
Defined.

(** ** Worked examples *)

(** A source with every field, one with a title only, and one without. *)
Example format_sources_three_entries :
  Report.format_sources strings_only
    [Report.source_object
       (<["title" := "Whisper paper"]> (<["url" := "https://example.org/w"]>
        (<["date" := "2022-12-06"]> (<["notes" := "baseline"]>
        {["type" := "primary"]}))));
     Report.source_object (<["title" := "Forum thread"]> {["date" := ""]});
     Report.source_object ∅]
  = Ok ("- Whisper paper [2022-12-06] (primary)" +:+ Py.nl
        +:+ "  - URL: https://example.org/w" +:+ Py.nl
        +:+ "  - Notes: baseline" +:+ Py.nl
        +:+ "- Forum thread" +:+ Py.nl
        +:+ "- (untitled)").
Proof. vm_compute. reflexivity. Qed.

(** A list item that is not an object has no [get]; a title that is not a
    string cannot be joined. *)
Example format_sources_ill_typed :
  Report.format_sources strings_only [Report.JInt 7] = Raise AttributeError
  /\ Report.format_sources strings_only [Report.JObj {["title" := Report.JNull]}]
     = Raise TypeError.
Proof. split; vm_compute; reflexivity. Qed.

(** The arguments of [git log] for a range, a date and the default count. *)
Example build_log_args_all_options :
  Changelog.build_log_args (Some "v1.2.0..HEAD") (Some "2026-01-01") 50 false
  = ["log"; "v1.2.0..HEAD"; "--no-merges"; "--max-count=50";
     "--since"; "2026-01-01"; "--pretty=format:%h %s"].
Proof. vm_compute. reflexivity. Qed.

(** Without [git] on the path nothing is caught and nothing is written. *)
Example main_without_git :
  Changelog.main (fun _ => Changelog.NotStarted) no_options empty_world
  = (Uncaught (FileNotFoundError "git"), empty_world).
Proof. reflexivity. Qed.

(** * Further properties of the two scripts *)

(** ** Lines and stripping *)

Lemma string_strong_ind (P : string -> Prop) :
  (forall s, (forall t, String.length t < String.length s -> P t) -> P s) ->
  forall s, P s.
Proof.
  intros H s. remember (String.length s) as n eqn:Hn.
  revert s Hn. induction n as [n IH] using lt_wf_ind. intros s ->.
  apply H. intros t Ht. by apply (IH (String.length t)).
Qed.

Lemma no_linebreak_app a b :
  no_linebreak (a +:+ b) = no_linebreak a && no_linebreak b.
Proof.
  induction a as [|c a IH]; str_simpl; [reflexivity|].
  rewrite IH. by rewrite andb_assoc.
Qed.

Lemma no_linebreak_lstrip s : no_linebreak s = true -> no_linebreak (Py.lstrip s) = true.
Proof.
  induction s as [|c s IH]; simpl; [done|].
  intros [Hc Hs]%andb_true_iff. destruct (Py.is_space c); [by apply IH|].
  simpl. by rewrite Hc, Hs.
Qed.

Lemma no_linebreak_rstrip s : no_linebreak s = true -> no_linebreak (Py.rstrip s) = true.
Proof.
  induction s as [|c s IH]; simpl; [done|].
  intros [Hc Hs]%andb_true_iff. specialize (IH Hs).
  destruct (Py.rstrip s) as [|c' r'].
  - destruct (Py.is_space c); simpl; [done | by rewrite Hc].
  - simpl in *. by rewrite Hc, IH.
Qed.

Lemma no_linebreak_strip s : no_linebreak s = true -> no_linebreak (Py.strip s) = true.
Proof. intros H. by apply no_linebreak_rstrip, no_linebreak_lstrip. Qed.

Lemma rstrip_idempotent s : Py.rstrip (Py.rstrip s) = Py.rstrip s.
Proof.
  induction s as [|c s IH]; simpl; [reflexivity|].
  destruct (Py.rstrip s) as [|c' r'] eqn:E.
  - destruct (Py.is_space c) eqn:Hc; simpl; [reflexivity | by rewrite Hc].
  - simpl. simpl in IH. by rewrite IH.
Qed.

(** A string that does not start with whitespace keeps its first character
    under [rstrip], so [lstrip] has nothing to do afterwards. *)
Lemma lstrip_rstrip_lstrip s : Py.lstrip (Py.rstrip (Py.lstrip s)) = Py.rstrip (Py.lstrip s).
Proof.
  induction s as [|c s IH]; simpl; [reflexivity|].
  destruct (Py.is_space c) eqn:Hc; [exact IH|].
  simpl. destruct (Py.rstrip s); rewrite ?Hc; simpl; by rewrite Hc.
Qed.

Lemma strip_idempotent s : Py.strip (Py.strip s) = Py.strip s.
Proof.
  unfold Py.strip. rewrite lstrip_rstrip_lstrip. apply rstrip_idempotent.
Qed.

(** Every line [splitlines] hands out is free of line boundaries. *)
Lemma splitlines_from_no_linebreak s :
  forall cur, no_linebreak cur = true ->
  Forall (fun line => no_linebreak line = true) (Py.splitlines_from cur s).
Proof.
  induction s as [s IH] using string_strong_ind. intros cur Hcur.
  destruct s as [|c s]; simpl.
  - destruct (Py.truthy cur); by repeat constructor.
  - destruct (Py.is_linebreak c) eqn:Hc.
    + constructor; [done|]. destruct s as [|c' s']; [constructor|].
      destruct (Py.is_cr c && Py.is_lf c'); apply IH; simpl; (lia || done).
    + apply IH; [simpl; lia|].
      rewrite no_linebreak_app, Hcur. simpl. by rewrite Hc.
Qed.

Lemma parse_commits_elem output c :
  c ∈ Changelog.parse_commits output ->
  exists line, line ∈ Py.splitlines output /\ c = Py.strip line
    /\ Py.truthy (Py.strip line) = true.
Proof.
  unfold Changelog.parse_commits. rewrite list_elem_of_fmap.
  intros [line [-> [H Hin]%list_elem_of_filter]].
  exists line. repeat split; [done|]. by apply Is_true_true.
Qed.

Lemma parse_commits_all_clean (output : string) :
  Forall clean_commit (Changelog.parse_commits output).
Proof.
  apply Forall_forall. intros c [line [Hin [-> Ht]]]%parse_commits_elem.
  repeat split.
  - intros E. by rewrite E in Ht.
  - apply strip_idempotent.
  - apply no_linebreak_strip.
    pose proof (splitlines_from_no_linebreak output "" eq_refl) as Hall.
    rewrite Forall_forall in Hall. by apply Hall.
Qed.

(** X1. Whatever git prints, every commit [main] keeps is a clean one: it
    is not empty, stripping it again changes nothing, and it holds no line
    boundary, so that its bullet is a single line. *)
Theorem parse_commits_clean (output : string) :
  Forall (fun c => c <> "" /\ Py.strip c = c /\ no_linebreak c = true)
         (Changelog.parse_commits output).
Proof. exact (parse_commits_all_clean output). Qed.

(** ** Joining lines and splitting them again *)

Lemma splitlines_from_line l :
  no_linebreak l = true ->
  forall cur rest,
    Py.splitlines_from cur (l +:+ rest) = Py.splitlines_from (cur +:+ l) rest.
Proof.
  induction l as [|c l IH]; intros H cur rest.
  - by rewrite string_app_nil, string_app_empty_r.
  - simpl in H. apply andb_true_iff in H as [Hc Hl].
    apply negb_true_iff in Hc. rewrite string_app_cons. simpl. rewrite Hc.
    rewrite IH by done. by rewrite string_app_assoc.
Qed.

Lemma splitlines_from_nl cur rest :
  Py.splitlines_from cur (Py.nl +:+ rest) = cur :: Py.splitlines_from "" rest.
Proof. destruct rest; reflexivity. Qed.

(** Lines joined by newlines and closed by a newline split into the same
    lines. *)
Lemma splitlines_join_nl lines :
  Forall (fun l => no_linebreak l = true) lines -> lines <> [] ->
  Py.splitlines (Py.join Py.nl lines +:+ Py.nl) = lines.
Proof.
  unfold Py.splitlines. induction 1 as [|l lines Hl Hrest IH]; [done|]. intros _.
  destruct lines as [|l2 lines].
  - change (Py.join Py.nl [l]) with l.
    rewrite splitlines_from_line by done. by rewrite string_app_nil.
  - rewrite join_cons, !string_app_assoc.
    rewrite splitlines_from_line, splitlines_from_nl by done.
    rewrite string_app_nil. f_equal. by apply IH.
Qed.

(** Without the closing newline the last line must not be empty. *)
Lemma splitlines_join lines last_line :
  Forall (fun l => no_linebreak l = true) lines ->
  last lines = Some last_line -> last_line <> "" ->
  Py.splitlines (Py.join Py.nl lines) = lines.
Proof.
  unfold Py.splitlines. induction 1 as [|l lines Hl Hrest IH]; [done|].
  intros Hlast Hne. destruct lines as [|l2 lines].
  - injection Hlast as ->. change (Py.join Py.nl [last_line]) with last_line.
    rewrite <- (string_app_empty_r last_line) at 1.
    rewrite splitlines_from_line by done. rewrite string_app_nil. simpl.
    by rewrite (truthy_nonempty _ Hne).
  - rewrite join_cons. rewrite splitlines_from_line, splitlines_from_nl by done.
    rewrite string_app_nil. f_equal. by apply IH.
Qed.

Lemma no_linebreak_bullets commits :
  Forall (fun c => no_linebreak c = true) commits ->
  Forall (fun l => no_linebreak l = true) (bullets_of commits).
Proof.
  intros H. destruct commits as [|c cs]; [by repeat constructor|].
  unfold bullets_of. apply Forall_fmap. eapply Forall_impl; [exact H|].
  intros x Hx. simpl. by rewrite no_linebreak_app, Hx.
Qed.

Lemma format_markdown_bullets_of title commits :
  Changelog.format_markdown title commits
  = Py.join Py.nl (title :: "" :: bullets_of commits).
Proof. by destruct commits. Qed.

Lemma last_bullets_nonempty title commits :
  exists l, last (title :: "" :: bullets_of commits) = Some l /\ l <> "".
Proof.
  assert (H : exists l, last (bullets_of commits) = Some l /\ l <> "").
  { destruct commits as [|c cs]; [by eexists|].
    unfold bullets_of. rewrite fmap_last.
    destruct (last (c :: cs)) as [x|] eqn:E.
    - exists ("- " +:+ x). by split.
    - by apply last_None in E. }
  destruct H as [l [Hl Hne]]. exists l. split; [|done].
  destruct (bullets_of commits) as [|b bs]; [done|]. exact Hl.
Qed.

(** X2. Split into lines again, what [format_markdown] returns is the
    title, one empty line, and one line per commit (or the one placeholder),
    provided the title and the commits hold no line boundary. The same holds
    for the text with the newline [main] adds when it writes or prints. *)
Theorem format_markdown_lines (title : string) (commits : list string) :
  no_linebreak title = true ->
  Forall (fun c => no_linebreak c = true) commits ->
  Py.splitlines (Changelog.format_markdown title commits)
    = title :: "" :: bullets_of commits
  /\ Py.splitlines (Changelog.format_markdown title commits +:+ Py.nl)
    = title :: "" :: bullets_of commits.
Proof.
  intros Ht Hc. rewrite format_markdown_bullets_of.
  assert (Hall : Forall (fun l => no_linebreak l = true)
                   (title :: "" :: bullets_of commits)).
  { repeat constructor; [done|]. by apply no_linebreak_bullets. }
  destruct (last_bullets_nonempty title commits) as [l [Hl Hne]].
  split.
  - by apply (splitlines_join _ l).
  - by apply splitlines_join_nl.
Qed.

Lemma format_markdown_lines_witness :
  Py.splitlines (Changelog.format_markdown "## Changelog (since v1.2.0)" clean_pair)
  = ["## Changelog (since v1.2.0)"; ""; "- a1b2c3d fix crash"; "- e4f5a6b add tests"].
Proof.
  apply (proj1 (format_markdown_lines "## Changelog (since v1.2.0)" clean_pair
                  eq_refl ltac:(repeat constructor))).
Defined.

Lemma clean_commits_fixed cs :
  Forall clean_commit cs ->
  map Py.strip (filter (fun line => Is_true (Py.truthy (Py.strip line))) cs) = cs.
Proof.
  induction 1 as [|c cs [Hne [Hs Hl]] _ IH]; [reflexivity|].
  rewrite filter_cons_True by (rewrite Hs; by apply Is_true_true, truthy_nonempty).
  simpl. by rewrite Hs, IH.
Qed.

(** X3. Parsing is a left inverse of joining: clean commits joined by
    newlines are read back unchanged, so reading the list that [main]
    extracted a second time changes nothing. *)
Theorem parse_commits_join_round_trip :
  (forall commits,
     Forall clean_commit commits ->
     Changelog.parse_commits (Py.join Py.nl commits) = commits)
  /\ (forall output,
     Changelog.parse_commits (Py.join Py.nl (Changelog.parse_commits output))
     = Changelog.parse_commits output).
Proof.
  assert (H : forall commits, Forall clean_commit commits ->
            Changelog.parse_commits (Py.join Py.nl commits) = commits).
  { intros commits Hclean. unfold Changelog.parse_commits.
    destruct (last commits) as [l|] eqn:Hlast.
    - rewrite (splitlines_join commits l); [by apply clean_commits_fixed | | done |].
      + eapply Forall_impl; [exact Hclean|]. by intros c (_ & _ & Hc).
      + apply last_Some_elem_of in Hlast.
        rewrite Forall_forall in Hclean. by destruct (Hclean l Hlast).
    - apply last_None in Hlast. by subst. }
  split; [exact H|]. intros output. apply H, parse_commits_all_clean.
Qed.

Lemma parse_commits_join_round_trip_witness :
  Changelog.parse_commits (Py.join Py.nl clean_pair) = clean_pair.
Proof.
  apply (proj1 parse_commits_join_round_trip clean_pair).
  repeat constructor; discriminate.
Defined.

(** ** The last tag, the range and the arguments of git log *)



(** X5. The range and the log arguments fit together: [build_range] never
    returns an empty string, it returns a range exactly when one of the two
    references is given and not empty, and the test [if git_range:] of
    [build_log_args] then lets it through, as the argument right after
    ["log"]. *)
Theorem build_range_reaches_git_log (since_ref until_ref since_date : option string)
    (max_count : Z) (include_merges : bool) :
  Py.truthy_opt (Changelog.build_range since_ref until_ref)
    = Py.truthy_opt since_ref || Py.truthy_opt until_ref
  /\ (forall r, Changelog.build_range since_ref until_ref = Some r ->
      r <> ""
      /\ Changelog.build_log_args (Changelog.build_range since_ref until_ref)
           since_date max_count include_merges !! 1 = Some r)
  /\ (Changelog.build_range since_ref until_ref = None <->
      Py.truthy_opt since_ref = false /\ Py.truthy_opt until_ref = false).
Proof.
  assert (H1 : Py.truthy_opt (Changelog.build_range since_ref until_ref)
               = Py.truthy_opt since_ref || Py.truthy_opt until_ref).
  { unfold Changelog.build_range.
    destruct since_ref as [[|c s]|], until_ref as [[|c' u]|]; reflexivity. }
  split; [exact H1|]. split.
  - intros r Hr.
    assert (Ht : Py.truthy r = true).
    { unfold Changelog.build_range in Hr.
      destruct since_ref as [[|c s]|], until_ref as [[|c' u]|];
        simpl in Hr; try discriminate; injection Hr as <-; reflexivity. }
    split; [intros E; by rewrite E in Ht|].
    rewrite Hr. unfold Changelog.build_log_args. simpl. rewrite Ht.
    by destruct include_merges, (Py.truthy_opt since_date).
  - unfold Changelog.build_range.
    destruct since_ref as [[|c s]|], until_ref as [[|c' u]|]; simpl;
      split; (done || by intros []).
Qed.

(** X6. Whatever the options, the arguments for git start with ["log"],
    end with the format ["%h %s"] that [main] reads the commits from, hold
    the [--max-count] bound, hold [--no-merges] unless merges are asked
    for, and give a date, when there is one, right after [--since]. *)
Theorem build_log_args_shape (git_range since_date : option string)
    (max_count : Z) (include_merges : bool) :
  let args :=
    Changelog.build_log_args git_range since_date max_count include_merges in
  head args = Some "log"
  /\ last args = Some "--pretty=format:%h %s"
  /\ ("--max-count=" +:+ Py.str_of_int max_count) ∈ args
  /\ (include_merges = false -> "--no-merges" ∈ args)
  /\ (forall date, since_date = Some date -> date <> "" ->
      exists before, args = before ++ ["--since"; date; "--pretty=format:%h %s"])
  /\ 3 <= length args <= 7.
Proof.
  unfold Changelog.build_log_args. cbv zeta.
  generalize (Py.str_of_int max_count). intros count.
  repeat apply conj.
  - destruct (Py.truthy_opt git_range), include_merges,
      (Py.truthy_opt since_date); reflexivity.
  - destruct (Py.truthy_opt git_range), include_merges,
      (Py.truthy_opt since_date); reflexivity.
  - destruct (Py.truthy_opt git_range), include_merges,
      (Py.truthy_opt since_date); cbn [app];
      repeat (apply list_elem_of_here || apply list_elem_of_further).
  - intros ->. destruct (Py.truthy_opt git_range),
      (Py.truthy_opt since_date); cbn [app negb];
      repeat (apply list_elem_of_here || apply list_elem_of_further).
  - intros date -> Hne. cbn [Py.truthy_opt default].
    rewrite (truthy_nonempty _ Hne).
    eexists. rewrite <- app_assoc. reflexivity.
  - destruct (Py.truthy_opt git_range), include_merges,
      (Py.truthy_opt since_date); cbn [app negb length]; lia.
  - destruct (Py.truthy_opt git_range), include_merges,
      (Py.truthy_opt since_date); cbn [app negb length]; lia.
Qed.

Lemma build_log_args_shape_witness :
  exists before,
    Changelog.build_log_args (Some "v1.2.0..HEAD") (Some "2026-01-01") 50 true
    = before ++ ["--since"; "2026-01-01"; "--pretty=format:%h %s"].
Proof.
  apply (proj1 (proj2 (proj2 (proj2 (proj2
           (build_log_args_shape (Some "v1.2.0..HEAD") (Some "2026-01-01") 50 true)))))
           "2026-01-01"); [reflexivity | discriminate].
Defined.

(** ** What a run of the changelog generator leaves behind *)

(** Every way [main] can end. *)
Lemma changelog_main_ends (git : Changelog.git_oracle)
    (args : Changelog.namespace) (w : world) :
  Changelog.main git args w = (Uncaught (FileNotFoundError "git"), w)
  \/ (exists msg, Changelog.main git args w = (Exit 1, stderr_write msg w))
  \/ (exists path : string,
        Changelog.output args = Some path /\ path ∈ unwritable w
        /\ Changelog.main git args w = (Uncaught (OSError path), w))
  \/ (exists path text : string, Changelog.output args = Some path /\ path <> ""
        /\ Changelog.main git args w
           = (Exit 0, World (stdout w) (stderr w) (<[path := text]> (files w))
                        (unwritable w)))
  \/ (exists text : string, absent_or_empty (Changelog.output args)
        /\ Changelog.main git args w = (Exit 0, print text w)).
Proof.
  unfold Changelog.main.
  assert (Hrun : forall argv,
    (exists out, Changelog.run_git git argv = Ok out)
    \/ (exists rc err, Changelog.run_git git argv = Raise (CalledProcessError rc err))
    \/ Changelog.run_git git argv = Raise (FileNotFoundError "git")).
  { intros argv. unfold Changelog.run_git. destruct (git argv) as [p|]; [|tauto].
    destruct (Changelog.returncode p =? 0)%Z; eauto. }
  assert (Hres : (exists r, Changelog.resolve_since_ref git args = Ok r)
    \/ Changelog.resolve_since_ref git args = Raise (FileNotFoundError "git")).
  { unfold Changelog.resolve_since_ref, Changelog.get_last_tag.
    destruct (_ && _); [|eauto].
    destruct (Hrun ["describe"; "--tags"; "--abbrev=0"])
      as [[out ->] | [(rc & err & ->) | ->]]; eauto. }
  destruct Hres as [[r ->] | ->]; [|tauto].
  destruct (Hrun (Changelog.build_log_args
              (Changelog.build_range r (Changelog.until_ref args))
              (Changelog.since_date args) (Changelog.max args)
              (Changelog.include_merges args)))
    as [[out ->] | [(rc & err & ->) | ->]]; [|eauto|tauto].
  cbv zeta.
  generalize (Changelog.format_markdown
    (Changelog.build_title r (Changelog.since_date args) (Changelog.until_ref args))
    (Changelog.parse_commits out)).
  intros markdown. unfold Changelog.emit, write_file.
  destruct (Changelog.output args) as [[|c path]|] eqn:Hout;
    cbn [Py.truthy_opt Py.truthy default from_option id].
  - do 4 right. exists markdown. split; [by right | reflexivity].
  - destruct (decide (String c path ∈ unwritable w)) as [Hin | Hnotin].
    + do 2 right. left. exists (String c path). by repeat split.
    + do 3 right. left. exists (String c path), (markdown +:+ Py.nl).
      by repeat split.
  - do 4 right. exists markdown. split; [by left | reflexivity].
Qed.


(** X8. [main] of the changelog generator only ever adds: what was on
    stdout and stderr before is still there, in front of what the run
    appended; no file other than the one named by [--output] changes. *)
Theorem changelog_main_frame (git : Changelog.git_oracle)
    (args : Changelog.namespace) (w : world) :
  let w' := snd (Changelog.main git args w) in
  appended (stdout w) (stdout w')
  /\ appended (stderr w) (stderr w')
  /\ (forall path : string, Changelog.output args <> Some path ->
      files w' !! path = files w !! path)
  /\ unwritable w' = unwritable w.
Proof.
  assert (Hrefl : forall s, appended s s).
  { intros s. exists "". by rewrite string_app_empty_r. }
  cbv zeta.
  destruct (changelog_main_ends git args w)
    as [-> | [[msg ->] | [(path & Ho & Hw & ->) | [(path & text & Ho & Hne & ->)
       | (text & Ha & ->)]]]]; simpl; repeat apply conj;
    try apply Hrefl; try done; try (by eexists).
  intros p Hp. apply lookup_insert_ne. congruence.
Qed.

(** X9. A run that gets its log delivers the same text either way: with a
    usable [--output] path the file holds the changelog and a final
    newline, exactly what the run would otherwise have printed; when the
    path cannot be opened nothing is written anywhere. *)
Theorem changelog_main_delivers (git : Changelog.git_oracle)
    (args : Changelog.namespace) (w : world)
    (since_ref : option string) (p : Changelog.completed) :
  Changelog.resolve_since_ref git args = Ok since_ref ->
  git (log_args_of args since_ref) = Changelog.Ran p ->
  Changelog.returncode p = 0%Z ->
  let text :=
    Changelog.format_markdown
      (Changelog.build_title since_ref (Changelog.since_date args)
         (Changelog.until_ref args))
      (Changelog.parse_commits (Py.strip (Changelog.proc_stdout p)))
    +:+ Py.nl in
  (forall path : string, Changelog.output args = Some path -> path <> "" ->
     path ∉ unwritable w ->
     Changelog.main git args w
     = (Exit 0,
        World (stdout w) (stderr w) (<[path := text]> (files w)) (unwritable w)))
  /\ (forall path : string, Changelog.output args = Some path -> path <> "" ->
     path ∈ unwritable w ->
     Changelog.main git args w = (Uncaught (OSError path), w))
  /\ (absent_or_empty (Changelog.output args) ->
     Changelog.main git args w
     = (Exit 0, World (stdout w +:+ text) (stderr w) (files w) (unwritable w))).
Proof.
  intros Hsince Hgit Hrc. cbv zeta. unfold Changelog.main. rewrite Hsince.
  unfold log_args_of in Hgit. unfold Changelog.run_git. rewrite Hgit, Hrc.
  simpl. unfold Changelog.emit, write_file. repeat apply conj.
  - intros path -> Hne Hw. simpl. rewrite (truthy_nonempty _ Hne).
    by rewrite decide_False.
  - intros path -> Hne Hw. simpl. rewrite (truthy_nonempty _ Hne).
    by rewrite decide_True.
  - intros Ha. by rewrite (truthy_opt_absent _ Ha).
Qed.

Lemma changelog_main_delivers_witness :
  Changelog.main tagged_repository
    (Changelog.Namespace None None None 50 false (Some "CHANGELOG.md"))
    empty_world
  = (Exit 0,
     World "" ""
       {["CHANGELOG.md" :=
           "## Changelog (since v1.2.0)" +:+ Py.nl +:+ Py.nl
           +:+ "- a1b2c3d fix crash" +:+ Py.nl
           +:+ "- e4f5a6b add tests" +:+ Py.nl]}
       ∅).
Proof.
  apply (proj1 (changelog_main_delivers tagged_repository
                  (Changelog.Namespace None None None 50 false (Some "CHANGELOG.md"))
                  empty_world (Some "v1.2.0")
                  (Changelog.Completed 0
                     ("a1b2c3d fix crash" +:+ Py.nl +:+ "e4f5a6b add tests") "")
                  eq_refl eq_refl eq_refl) "CHANGELOG.md");
    [reflexivity | discriminate | apply not_elem_of_empty].
Defined.

(** ** Sources that are not what the type hints promise *)

Lemma mapM_result_cons {A B} (f : A -> result B) x l :
  mapM f (x :: l) = (y ← f x; k ← mapM f l; mret (y :: k)).
Proof. reflexivity. Qed.

Lemma mapM_result_ok {A B} (f : A -> result B) l :
  (exists k, mapM f l = Ok k) <-> Forall (fun x => exists y, f x = Ok y) l.
Proof.
  induction l as [|x l IH].
  - split; [constructor | by exists []].
  - rewrite mapM_result_cons, Forall_cons, <- IH. split.
    + intros [k Hk]. destruct (f x) as [y|e]; [|discriminate].
      split; [by exists y|]. simpl in Hk.
      destruct (mapM f l) as [k'|e]; [by exists k' | discriminate].
    + intros [[y ->] [k ->]]. by eexists.
Qed.

Lemma mapM_result_raise {A B} (f : A -> result B) l e :
  mapM f l = Raise e -> exists x, x ∈ l /\ f x = Raise e.
Proof.
  induction l as [|x l IH]; [discriminate|].
  rewrite mapM_result_cons. destruct (f x) as [y|e'] eqn:Hx.
  - simpl. destruct (mapM f l) as [k|e'']; [discriminate|].
    intros [= ->]. destruct (IH eq_refl) as [x' [Hin Hx']].
    exists x'. split; [by apply list_elem_of_further | done].
  - intros [= ->]. exists x. split; [apply list_elem_of_here | done].
Qed.

(** What [format_sources] makes of one item, whatever JSON it is. *)
Lemma format_source_cases py_str item :
  (renderable item /\ exists line, Report.format_source py_str item = Ok line)
  \/ ((forall fields, item <> Report.JObj fields)
      /\ Report.format_source py_str item = Raise AttributeError)
  \/ (exists fields v, item = Report.JObj fields /\ fields !! "title" = Some v
      /\ (forall s, v <> Report.JStr s)
      /\ Report.format_source py_str item = Raise TypeError).
Proof.
  destruct item as [| b | n | x | s | items | fields];
    try (right; left; split; [discriminate | reflexivity]).
  unfold Report.format_source, Report.get. cbn [mbind result_bind].
  destruct (fields !! "title") as [title|] eqn:Ht.
  - destruct title as [| b | n | x | s | items | fields'];
      try (right; right; exists fields; eexists;
           split; [reflexivity|]; split; [exact Ht|]; split; [discriminate|];
           cbn [default from_option id];
           destruct (Report.truthy_json (default (Report.JStr "") (fields !! "type"))),
             (Report.truthy_json (default (Report.JStr "") (fields !! "date"))); reflexivity).
    left. split; [exists fields; split; [done | right; by exists s]|].
    cbn [default from_option id].
    destruct (Report.truthy_json (default (Report.JStr "") (fields !! "type"))),
             (Report.truthy_json (default (Report.JStr "") (fields !! "date"))); by eexists.
  - left. split; [exists fields; split; [done | by left]|].
    cbn [default from_option id].
    destruct (Report.truthy_json (default (Report.JStr "") (fields !! "type"))),
             (Report.truthy_json (default (Report.JStr "") (fields !! "date"))); by eexists.
Qed.

Lemma renderable_not_raise py_str item e :
  renderable item -> Report.format_source py_str item <> Raise e.
Proof.
  intros [fields [-> Ht]] Hr.
  destruct (format_source_cases py_str (Report.JObj fields))
    as [[_ [line Hl]] | [[Hno _] | (f & v & Hf & Hv & Hns & _)]].
  - congruence.
  - by destruct (Hno fields).
  - injection Hf as <-. destruct Ht as [Ht | [s Ht]]; [congruence|].
    rewrite Ht in Hv. injection Hv as <-. by destruct (Hns s).
Qed.

Lemma format_sources_only_raises py_str sources e :
  Report.format_sources py_str sources = Raise e ->
  e = AttributeError \/ e = TypeError.
Proof.
  unfold Report.format_sources.
  destruct sources as [|item sources]; [discriminate|].
  cbn [negb Py.truthy_list]. cbv iota.
  destruct (mapM (Report.format_source py_str) (item :: sources))
    as [lines|e'] eqn:Hm; [discriminate|].
  intros [= ->]. apply mapM_result_raise in Hm as [x [_ Hx]].
  destruct (format_source_cases py_str x)
    as [[_ [l Hl]] | [[_ Hr] | (f & v & _ & _ & _ & Hr)]]; [congruence | ..];
    rewrite Hr in Hx; injection Hx as <-; tauto.
Qed.

(** X10. [format_sources] does not check what the type hints promise. It
    returns a text exactly when every item is a JSON object whose title, if
    it has one, is a string; the other fields may hold any JSON value. An
    item that is not an object ends the call with [AttributeError], a title
    that is not a string with [TypeError], and these are the only two
    exceptions. *)
Theorem format_sources_succeeds_iff (py_str : Report.json -> string)
    (sources : list Report.json) :
  ((exists text, Report.format_sources py_str sources = Ok text)
   <-> Forall renderable sources)
  /\ (forall e, Report.format_sources py_str sources = Raise e ->
      e = AttributeError \/ e = TypeError)
  /\ (forall item, (forall fields, item <> Report.JObj fields) ->
      Report.format_source py_str item = Raise AttributeError)
  /\ (forall fields v, fields !! "title" = Some v ->
      (forall s, v <> Report.JStr s) ->
      Report.format_source py_str (Report.JObj fields) = Raise TypeError).
Proof.
  split; [|split; [|split]].
  - unfold Report.format_sources.
    destruct sources as [|item sources]; [split; [constructor | by eexists]|].
    cbn [negb Py.truthy_list]. cbv iota. split.
    + intros [text Hok].
      destruct (mapM (Report.format_source py_str) (item :: sources))
        as [lines|e] eqn:Hm; [|discriminate].
      assert (Hall : Forall (fun x => exists y, Report.format_source py_str x = Ok y)
                       (item :: sources)) by (apply mapM_result_ok; eauto).
      eapply Forall_impl; [exact Hall|]. intros x [y Hy].
      destruct (format_source_cases py_str x)
        as [[Hr _] | [[_ Hx] | (f & v & _ & _ & _ & Hx)]]; [done | congruence ..].
    + intros Hall.
      assert (Hok : exists k, mapM (Report.format_source py_str) (item :: sources) = Ok k).
      { apply mapM_result_ok. eapply Forall_impl; [exact Hall|]. intros x Hx.
        destruct (format_source_cases py_str x)
          as [[_ Hl] | [[_ Hr] | (f & v & _ & _ & _ & Hr)]]; [done | ..];
          by destruct (renderable_not_raise py_str x _ Hx Hr). }
      destruct Hok as [k ->]. by eexists.
  - apply format_sources_only_raises.
  - intros item Hno.
    destruct (format_source_cases py_str item)
      as [[[fields [-> _]] _] | [[_ Hr] | (f & v & -> & _)]];
      [by destruct (Hno fields) | done | by destruct (Hno f)].
  - intros fields v Hv Hns.
    destruct (format_source_cases py_str (Report.JObj fields))
      as [[[f [Hf Ht]] _] | [[Hno _] | (f & v' & Hf & _ & _ & Hr)]];
      [| by destruct (Hno fields) | done].
    injection Hf as <-. destruct Ht as [Ht | [s Ht]]; [congruence|].
    rewrite Ht in Hv. injection Hv as <-. by destruct (Hns s).
Qed.

Lemma format_sources_succeeds_iff_witness :
  Report.format_source strings_only (Report.JInt 7) = Raise AttributeError
  /\ Report.format_source strings_only
       (Report.JObj {["title" := Report.JInt 7]}) = Raise TypeError.
Proof.
  split.
  - apply (proj1 (proj2 (proj2 (format_sources_succeeds_iff strings_only [])))
             (Report.JInt 7)). discriminate.
  - apply (proj2 (proj2 (proj2 (format_sources_succeeds_iff strings_only [])))
             {["title" := Report.JInt 7]} (Report.JInt 7));
      [reflexivity | discriminate].
Defined.

(** X11. An optional field that holds a value Python counts as false
    ([null], [false], [0], an empty string, list or object) is rendered
    exactly as if the key were not there at all. *)
Theorem falsy_field_as_absent (py_str : Report.json -> string)
    (fields : gmap string Report.json) (key : string) (v : Report.json) :
  key ∈ optional_fields ->
  Report.truthy_json v = false ->
  Report.format_source py_str (Report.JObj (<[key := v]> fields))
  = Report.format_source py_str (Report.JObj (delete key fields)).
Proof.
  intros Hkey Hv.
  assert (Hcases : key = "url" \/ key = "date" \/ key = "notes" \/ key = "type").
  { unfold optional_fields in Hkey. rewrite !elem_of_cons in Hkey.
    rewrite elem_of_nil in Hkey. tauto. }
  unfold Report.format_source, Report.get. cbn [mbind result_bind].
  destruct Hcases as [-> | [-> | [-> | ->]]];
    rewrite !lookup_insert, !lookup_delete;
    repeat (case_decide; try discriminate; try done);
    cbn [default from_option id]; rewrite Hv;
    change (Report.truthy_json (Report.JStr "")) with false;
    reflexivity.
Qed.

Lemma falsy_field_as_absent_witness :
  Report.format_source strings_only
    (Report.JObj (<["date" := Report.JNull]> {["title" := Report.JStr "Whisper"]}))
  = Report.format_source strings_only
    (Report.JObj (delete "date" {["title" := Report.JStr "Whisper"]})).
Proof.
  apply (falsy_field_as_absent strings_only
           {["title" := Report.JStr "Whisper"]} "date" Report.JNull);
    [apply list_elem_of_further, list_elem_of_here | reflexivity].
Defined.

(** ** What a run of the report scaffolder leaves behind *)





(** ** The lines of the changelog that is written *)

Lemma build_title_no_linebreak since_ref since_date until_ref :
  no_linebreak (default "" since_ref) = true ->
  no_linebreak (default "" since_date) = true ->
  no_linebreak (default "" until_ref) = true ->
  no_linebreak (Changelog.build_title since_ref since_date until_ref) = true.
Proof.
  intros Hs Hd Hu. unfold Changelog.build_title.
  destruct (Py.truthy_opt since_ref), (Py.truthy_opt since_date),
    (Py.truthy_opt until_ref); cbn [app Py.join];
    rewrite ?no_linebreak_app, ?Hs, ?Hd, ?Hu; reflexivity.
Qed.

Lemma changelog_main_emits git args w since_ref p :
  Changelog.resolve_since_ref git args = Ok since_ref ->
  git (log_args_of args since_ref) = Changelog.Ran p ->
  Changelog.returncode p = 0%Z ->
  Changelog.main git args w
  = Changelog.emit args
      (Changelog.format_markdown
         (Changelog.build_title since_ref (Changelog.since_date args)
            (Changelog.until_ref args))
         (Changelog.parse_commits (Py.strip (Changelog.proc_stdout p)))) w.
Proof.
  intros Hsince Hgit Hrc. unfold Changelog.main. rewrite Hsince.
  unfold log_args_of in Hgit. unfold Changelog.run_git. by rewrite Hgit, Hrc.
Qed.

(** X14. The changelog file, read back line by line, is the heading, one
    empty line, and then one bullet for each non-blank line of git's
    output, in git's order (or the one placeholder bullet when there is
    none): nothing is merged and nothing is broken in two, as long as the
    references and the date given on the command line hold no line
    boundary. *)
Theorem changelog_file_lines (git : Changelog.git_oracle)
    (args : Changelog.namespace) (w : world)
    (since_ref : option string) (p : Changelog.completed) (path : string) :
  Changelog.resolve_since_ref git args = Ok since_ref ->
  git (log_args_of args since_ref) = Changelog.Ran p ->
  Changelog.returncode p = 0%Z ->
  Changelog.output args = Some path -> path <> "" -> path ∉ unwritable w ->
  no_linebreak (default "" since_ref) = true ->
  no_linebreak (default "" (Changelog.since_date args)) = true ->
  no_linebreak (default "" (Changelog.until_ref args)) = true ->
  exists text,
    files (snd (Changelog.main git args w)) !! path = Some text
    /\ Py.splitlines text
       = Changelog.build_title since_ref (Changelog.since_date args)
           (Changelog.until_ref args)
         :: "" :: bullets_of (nonblank_lines_stripped (Changelog.proc_stdout p)).
Proof.
  intros Hsince Hgit Hrc Hout Hne Hw Hs Hd Hu.
  rewrite (changelog_main_emits git args w since_ref p Hsince Hgit Hrc).
  rewrite parse_commits_strip, parse_commits_nonblank_lines.
  unfold Changelog.emit, write_file. rewrite Hout.
  cbn [Py.truthy_opt default from_option id].
  rewrite (truthy_nonempty _ Hne), decide_False by done.
  eexists. split; [apply lookup_insert_eq|].
  rewrite format_markdown_bullets_of. apply splitlines_join_nl; [|done].
  repeat constructor; [by apply build_title_no_linebreak|].
  apply no_linebreak_bullets.
  rewrite <- parse_commits_nonblank_lines.
  eapply Forall_impl; [apply parse_commits_all_clean|]. by intros c (_ & _ & Hc).
Qed.

Lemma changelog_file_lines_witness :
  exists text,
    files (snd (Changelog.main tagged_repository
                  (Changelog.Namespace None None None 50 false (Some "CHANGELOG.md"))
                  empty_world)) !! "CHANGELOG.md" = Some text
    /\ Py.splitlines text
       = Changelog.build_title (Some "v1.2.0") None None
         :: "" :: bullets_of (nonblank_lines_stripped
                                ("a1b2c3d fix crash" +:+ Py.nl +:+ "e4f5a6b add tests")).
Proof.
  apply (changelog_file_lines tagged_repository
           (Changelog.Namespace None None None 50 false (Some "CHANGELOG.md"))
           empty_world (Some "v1.2.0")
           (Changelog.Completed 0
              ("a1b2c3d fix crash" +:+ Py.nl +:+ "e4f5a6b add tests") "")
           "CHANGELOG.md");
    [reflexivity | reflexivity | reflexivity | reflexivity | discriminate
    | apply not_elem_of_empty | reflexivity | reflexivity | reflexivity].
Defined.

(** ** Where the log starts *)

Lemma log_args_not_describe args since_ref : log_args_of args since_ref <> describe_args.
Proof.
  unfold log_args_of, Changelog.build_log_args, describe_args. cbv zeta.
  generalize (Py.str_of_int (Changelog.max args)). intros count.
  destruct (Py.truthy_opt _), (Changelog.include_merges args), (Py.truthy_opt _);
    discriminate.
Qed.

(** X15. A run with neither [--since-ref] nor [--since-date] in a
    repository whose last tag is [tag] does exactly what a run with
    [--since-ref tag] does: same range, same title, same output. *)
Theorem last_tag_is_default_since_ref (git : Changelog.git_oracle)
    (args : Changelog.namespace) (w : world) (tag : string) :
  Py.truthy_opt (Changelog.since_ref args) = false ->
  Py.truthy_opt (Changelog.since_date args) = false ->
  Changelog.get_last_tag git = Ok (Some tag) ->
  Changelog.main git args w = Changelog.main git (with_since_ref args tag) w.
Proof.
  intros Hs Hd Htag.
  assert (Ht : Py.truthy tag = true).
  { unfold Changelog.get_last_tag in Htag.
    destruct (Changelog.run_git git _) as [out|[]]; try discriminate.
    destruct (Py.truthy out) eqn:E; [|discriminate]. by injection Htag as <-. }
  unfold Changelog.main, Changelog.resolve_since_ref, with_since_ref.
  cbn [Changelog.since_ref Changelog.since_date Changelog.until_ref
       Changelog.max Changelog.include_merges Py.truthy_opt].
  rewrite Hs, Hd, Htag, Ht. reflexivity.
Qed.

Lemma last_tag_is_default_since_ref_witness :
  Changelog.main tagged_repository no_options empty_world
  = Changelog.main tagged_repository (with_since_ref no_options "v1.2.0") empty_world.
Proof.
  apply (last_tag_is_default_since_ref tagged_repository no_options empty_world
           "v1.2.0"); reflexivity.
Defined.

(** X16. With [--since-ref] or [--since-date] given, [get_last_tag] is not
    called: the run does not depend on what [git describe] would answer,
    be it a tag, a failure, or a [git] that cannot describe at all. *)
Theorem since_given_skips_last_tag (git1 git2 : Changelog.git_oracle)
    (args : Changelog.namespace) (w : world) :
  Py.truthy_opt (Changelog.since_ref args) || Py.truthy_opt (Changelog.since_date args)
    = true ->
  (forall argv, argv <> describe_args -> git1 argv = git2 argv) ->
  Changelog.main git1 args w = Changelog.main git2 args w.
Proof.
  intros Hgiven Hsame.
  assert (Hres : forall git,
    Changelog.resolve_since_ref git args = Ok (Changelog.since_ref args)).
  { intros git. unfold Changelog.resolve_since_ref.
    rewrite <- negb_orb, Hgiven. reflexivity. }
  unfold Changelog.main. rewrite !Hres. cbv zeta.
  fold (log_args_of args (Changelog.since_ref args)).
  unfold Changelog.run_git.
  by rewrite (Hsame _ (log_args_not_describe args (Changelog.since_ref args))).
Qed.

Lemma since_given_skips_last_tag_witness :
  Changelog.main
    (answering_describe
       (Changelog.Ran (Changelog.Completed 0 ("v1.2.0" +:+ Py.nl) "")))
    (Changelog.Namespace None None (Some "2026-01-01") 50 false None) empty_world
  = Changelog.main (answering_describe Changelog.NotStarted)
    (Changelog.Namespace None None (Some "2026-01-01") 50 false None) empty_world.
Proof.
  apply (since_given_skips_last_tag
           (answering_describe
              (Changelog.Ran (Changelog.Completed 0 ("v1.2.0" +:+ Py.nl) "")))
           (answering_describe Changelog.NotStarted)
           (Changelog.Namespace None None (Some "2026-01-01") 50 false None)
           empty_world); [reflexivity|].
  intros argv Hne. unfold answering_describe.
  destruct (decide (argv = describe_args)) as [Heq | _]; [by destruct Hne | reflexivity].
Defined.
